(** * Project analysis step of [amplify init]

    A shallow embedding of
    [packages/amplify-cli/src/init-steps/s0-analyzeProject.ts].

    The TypeScript functions talk to the outside world (working directory,
    persisted project state, the terminal, telemetry, the process) through
    calls on collaborators.  Every such call is kept as a node of a small
    free monad [prog]; a handler answers the calls from a [World], and
    [run] records the calls made, in order, next to the outcome. *)

From Stdlib Require Import ZArith QArith Ascii String.
From stdpp Require Import gmap strings list.

Local Open Scope string_scope.

(** ** JavaScript values used by the step *)

(** An optional string property: [None] is [undefined].  The source tests
    such properties for truthiness, and the empty string is falsy. *)
Definition truthy (v : option string) : bool :=
  match v with
  | Some s => negb (String.eqb s "")
  | None => false
  end.

(** An optional boolean property. *)
Definition truthyb (v : option bool) : bool :=
  match v with
  | Some b => b
  | None => false
  end.

(** ** Data model *)

(** [amplifyCLIConstants.CURRENT_PROJECT_CONFIG_VERSION] is kept symbolic:
    the constant lives in [amplify-helpers/constants]. *)
Inductive ConfigVersion : Type :=
| CURRENT_PROJECT_CONFIG_VERSION
| OtherVersion (v : string).

Record ProjectConfig : Type := {
  pc_projectName : string;
  pc_version : ConfigVersion;
  pc_frontend : option string
}.

Record LocalEnvInfo : Type := {
  lei_projectPath : option string;
  lei_defaultEditor : option string;
  lei_envName : option string
}.

(** The object literal [{}] passed as [default] to [getLocalEnvInfo]. *)
Definition emptyLocalEnvInfo : LocalEnvInfo :=
  {| lei_projectPath := None; lei_defaultEditor := None; lei_envName := None |}.

#[local] Unset Elimination Schemes.

(** A value read from a JSON file.  A number is kept as a rational. *)
Inductive JsValue : Type :=
| JsNull
| JsBool (b : bool)
| JsNumber (q : Q)
| JsString (s : string)
| JsArray (items : list JsValue)
| JsObject (fields : list (string * JsValue)).

#[local] Set Elimination Schemes.

(** The truthiness JavaScript gives a value in a condition: [null],
    [false], zero and the empty string are falsy, every object and array
    is truthy. *)
Definition jsTruthy (v : JsValue) : bool :=
  match v with
  | JsNull => false
  | JsBool b => b
  | JsNumber q => negb (Qnum q =? 0)%Z
  | JsString s => negb (String.eqb s "")
  | JsArray _ => true
  | JsObject _ => true
  end.

(** The properties every object inherits from [Object.prototype]; each is
    a function or an object, hence truthy. *)
Definition objectPrototype : list string :=
  ["constructor"; "__defineGetter__"; "__defineSetter__"; "hasOwnProperty";
   "__lookupGetter__"; "__lookupSetter__"; "isPrototypeOf";
   "propertyIsEnumerable"; "toString"; "valueOf"; "__proto__";
   "toLocaleString"].

(** The object a team-provider file holds: a value for each of its keys. *)
Abbreviation TeamProviderInfo := (gmap string JsValue).

(** Whether [object[name]] is truthy: the value stored under the key when
    there is one, else the inherited property of that name, if any. *)
Definition truthyProperty (object : gmap string JsValue) (name : string) : bool :=
  match object !! name with
  | Some v => jsTruthy v
  | None => bool_decide (name ∈ objectPrototype)
  end.
Abbreviation MetaData := (gmap string string).

(** [context.exeInfo.inputParams.amplify] *)
Record AmplifyParams : Type := {
  ap_projectName : option string;
  ap_envName : option string;
  ap_defaultEditor : option string
}.

(** [context.exeInfo.inputParams] *)
Record InputParams : Type := {
  amplify : option AmplifyParams;
  yes : bool
}.

(** [context.parameters.options] *)
Record Options : Type := {
  opt_app : option string;
  opt_quickstart : bool;
  opt_forcePush : bool;
  opt_frontend : option string
}.

(** [context.exeInfo]; a property that was never assigned is [None]. *)
Record ExeInfo : Type := {
  inputParams : InputParams;
  exe_isNewProject : option bool;
  exe_isNewEnv : option bool;
  exe_forcePush : option bool;
  exe_sourceEnvName : option string;
  exe_projectConfig : option ProjectConfig;
  exe_localEnvInfo : option LocalEnvInfo;
  exe_teamProviderInfo : option TeamProviderInfo;
  exe_metaData : option MetaData
}.

Record Context : Type := {
  options : Options;
  exeInfo : ExeInfo
}.

(** Assignments to properties of [context.exeInfo]. *)
Definition set_isNewProject (b : bool) (c : Context) : Context :=
  let e := exeInfo c in
  {| options := options c;
     exeInfo := {| inputParams := inputParams e;
                   exe_isNewProject := Some b;
                   exe_isNewEnv := exe_isNewEnv e;
                   exe_forcePush := exe_forcePush e;
                   exe_sourceEnvName := exe_sourceEnvName e;
                   exe_projectConfig := exe_projectConfig e;
                   exe_localEnvInfo := exe_localEnvInfo e;
                   exe_teamProviderInfo := exe_teamProviderInfo e;
                   exe_metaData := exe_metaData e |} |}.

Definition set_isNewEnv (b : bool) (c : Context) : Context :=
  let e := exeInfo c in
  {| options := options c;
     exeInfo := {| inputParams := inputParams e;
                   exe_isNewProject := exe_isNewProject e;
                   exe_isNewEnv := Some b;
                   exe_forcePush := exe_forcePush e;
                   exe_sourceEnvName := exe_sourceEnvName e;
                   exe_projectConfig := exe_projectConfig e;
                   exe_localEnvInfo := exe_localEnvInfo e;
                   exe_teamProviderInfo := exe_teamProviderInfo e;
                   exe_metaData := exe_metaData e |} |}.

Definition set_forcePush (b : bool) (c : Context) : Context :=
  let e := exeInfo c in
  {| options := options c;
     exeInfo := {| inputParams := inputParams e;
                   exe_isNewProject := exe_isNewProject e;
                   exe_isNewEnv := exe_isNewEnv e;
                   exe_forcePush := Some b;
                   exe_sourceEnvName := exe_sourceEnvName e;
                   exe_projectConfig := exe_projectConfig e;
                   exe_localEnvInfo := exe_localEnvInfo e;
                   exe_teamProviderInfo := exe_teamProviderInfo e;
                   exe_metaData := exe_metaData e |} |}.

Definition set_sourceEnvName (v : option string) (c : Context) : Context :=
  let e := exeInfo c in
  {| options := options c;
     exeInfo := {| inputParams := inputParams e;
                   exe_isNewProject := exe_isNewProject e;
                   exe_isNewEnv := exe_isNewEnv e;
                   exe_forcePush := exe_forcePush e;
                   exe_sourceEnvName := v;
                   exe_projectConfig := exe_projectConfig e;
                   exe_localEnvInfo := exe_localEnvInfo e;
                   exe_teamProviderInfo := exe_teamProviderInfo e;
                   exe_metaData := exe_metaData e |} |}.

Definition set_projectConfig (pc : ProjectConfig) (c : Context) : Context :=
  let e := exeInfo c in
  {| options := options c;
     exeInfo := {| inputParams := inputParams e;
                   exe_isNewProject := exe_isNewProject e;
                   exe_isNewEnv := exe_isNewEnv e;
                   exe_forcePush := exe_forcePush e;
                   exe_sourceEnvName := exe_sourceEnvName e;
                   exe_projectConfig := Some pc;
                   exe_localEnvInfo := exe_localEnvInfo e;
                   exe_teamProviderInfo := exe_teamProviderInfo e;
                   exe_metaData := exe_metaData e |} |}.

(** ** Validators *)

Definition is_lower (c : ascii) : bool :=
  let n := nat_of_ascii c in ((97 <=? n) && (n <=? 122))%nat.

Definition is_upper (c : ascii) : bool :=
  let n := nat_of_ascii c in ((65 <=? n) && (n <=? 90))%nat.

Definition is_digit (c : ascii) : bool :=
  let n := nat_of_ascii c in ((48 <=? n) && (n <=? 57))%nat.

Definition is_alnum (c : ascii) : bool :=
  is_lower c || is_upper c || is_digit c.

(** [/^[a-z]{2,10}$/.test(inputEnvName)]: without the [m] flag [$] only
    matches at the very end of the input. *)
Definition isEnvNameValid (inputEnvName : string) : bool :=
  let cs := list_ascii_of_string inputEnvName in
  (2 <=? length cs)%nat && (length cs <=? 10)%nat && forallb is_lower cs.

(** Modelled from the spec: [isProjectNameValid] of
    [amplify-helpers/project-name-validation] is not part of the analysed
    file; the spec gives it as "length 3-20 inclusive, alphanumeric only
    (letters and digits only, no spaces or symbols)". *)
Definition isProjectNameValid (projectName : string) : bool :=
  let cs := list_ascii_of_string projectName in
  (3 <=? length cs)%nat && (length cs <=? 20)%nat && forallb is_alnum cs.

(** What a [validate] callback of a question answers: [true], or the
    message shown before the question is asked again. *)
Inductive validation : Type :=
| Accepted
| Rejected (msg : string).

Definition accepted (v : validation) : bool :=
  match v with Accepted => true | Rejected _ => false end.

Definition INVALID_ENV_NAME_MSG : string :=
  "Environment name must be between 2 and 10 characters, and lowercase only.".

(** The two [validate] callbacks the file hands to [inquirer], by name. *)
Inductive Validator : Type :=
| ValidateProjectName   (* input => isProjectNameValid(input) || '...' *)
| ValidateEnvName.      (* input => (!isEnvNameValid(input) ? INVALID_ENV_NAME_MSG : true) *)

Definition validate (v : Validator) (input : string) : validation :=
  match v with
  | ValidateProjectName =>
      if isProjectNameValid input then Accepted
      else Rejected "Project name should be between 3 and 20 characters and alphanumeric"
  | ValidateEnvName =>
      if negb (isEnvNameValid input) then Rejected INVALID_ENV_NAME_MSG
      else Accepted
  end.

(** ** [path.basename] (POSIX): the last segment, trailing separators
    dropped. *)
Definition is_sep (c : ascii) : bool := Ascii.eqb c "/"%char.

Fixpoint drop_seps (cs : list ascii) : list ascii :=
  match cs with
  | c :: cs' => if is_sep c then drop_seps cs' else cs
  | [] => []
  end.

Fixpoint take_segment (cs : list ascii) : list ascii :=
  match cs with
  | c :: cs' => if is_sep c then [] else c :: take_segment cs'
  | [] => []
  end.

Definition basename (p : string) : string :=
  string_of_list_ascii
    (rev (take_segment (drop_seps (rev (list_ascii_of_string p))))).

(** ** Programs over calls on collaborators *)

(** A program either returns, or makes a call [e] and goes on with the
    answer, of type [R e]. *)
Inductive prog (E : Type) (R : E -> Type) (A : Type) : Type :=
| Ret (a : A)
| Do (e : E) (k : R e -> prog E R A).

Arguments Ret {E R A} a.
Arguments Do {E R A} e k.

Fixpoint bind {E R A B} (p : prog E R A) (f : A -> prog E R B) : prog E R B :=
  match p with
  | Ret a => f a
  | Do e k => Do e (fun x => bind (k x) f)
  end.

Notation "'let*' x ':=' p 'in' q" := (bind p (fun x => q))
  (at level 10, x name, p at level 100, q at level 200, only parsing).
Notation "p ';;' q" := (bind p (fun _ => q))
  (at level 100, q at level 200, only parsing, right associativity).

(** How the outside world answers a call. *)
Inductive reply (X : Type) : Type :=
| Value (x : X)          (* the call returns [x] *)
| Exits (code : Z)       (* the process ends inside the call *)
| Throws (e : string)    (* the call throws *)
| Waits.                 (* the call never completes *)

Arguments Value {X} x.
Arguments Exits {X} code.
Arguments Throws {X} e.
Arguments Waits {X}.

Inductive outcome (A : Type) : Type :=
| Returned (a : A)
| Exited (code : Z)
| Threw (e : string)
| Blocked.

Arguments Returned {A} a.
Arguments Exited {A} code.
Arguments Threw {A} e.
Arguments Blocked {A}.

(** Runs [p] against the handler [h]: the calls made, in order, and how
    the run ended. *)
Fixpoint run {E R A} (h : forall e : E, reply (R e)) (p : prog E R A)
  : list E * outcome A :=
  match p with
  | Ret a => ([], Returned a)
  | Do e k =>
      match h e with
      | Value x => let r := run h (k x) in (e :: r.1, r.2)
      | Exits code => ([e], Exited code)
      | Throws err => ([e], Threw err)
      | Waits => ([e], Blocked)
      end
  end.

(** [never P p]: no run of [p], whatever the answers, makes a call in [P]. *)
Inductive never {E : Type} {R : E -> Type} (P : E -> bool) {A : Type}
  : prog E R A -> Prop :=
| never_Ret a : never P (Ret a)
| never_Do e k : P e = false -> (forall x, never P (k x)) -> never P (Do e k).

(** ** The collaborators *)

(** [inquirer.InputQuestion] *)
Record InputQuestion : Type := {
  iq_name : string;
  iq_message : string;
  iq_default : option string;
  iq_validate : Validator
}.

(** [inquirer.ListQuestion] *)
Record ListQuestion : Type := {
  lq_name : string;
  lq_message : string;
  lq_choices : list string
}.

Inductive AmplifyError : Type :=
| InvalidEnvironmentNameError (message : string).

Inductive Call : Type :=
| ProcessCwd                                  (* process.cwd() *)
| ProjectConfigFileExists (projectPath : string)
    (* fs.existsSync(pathManager.getProjectConfigFilePath(projectPath)) *)
| GetProjectConfig (projectPath : string)     (* stateManager.getProjectConfig *)
| GetLocalEnvInfo (projectPath : option string) (throwIfNotExist : bool)
    (default : option LocalEnvInfo)           (* stateManager.getLocalEnvInfo *)
| GetTeamProviderInfo (projectPath : string) (throwIfNotExist : bool)
    (default : option TeamProviderInfo)       (* stateManager.getTeamProviderInfo *)
| GetAllEnvs                                  (* context.amplify.getAllEnvs() *)
| PrintWarning (msg : string)                 (* context.print.warning *)
| PrintError (msg : string)                   (* context.print.error *)
| EmitError (e : AmplifyError)                (* context.usageData.emitError *)
| ExitOnNextTick (code : Z)                   (* exitOnNextTick *)
| PromptInput (q : InputQuestion)             (* inquirer.prompt, input *)
| PromptList (q : ListQuestion)               (* inquirer.prompt, list *)
| ConfirmPrompt (message : string)            (* context.amplify.confirmPrompt *)
| EditorSelection (defaultEditor : option string)   (* editorSelection *)
| NormalizeEditor (editor : string)           (* normalizeEditor *)
| NormalizeProjectName (projectName : string) (* normalizeProjectName *)
| Throw (e : string).                         (* a JavaScript exception *)

(** The type of the answer to each call. *)
Definition Resp (c : Call) : Type :=
  match c with
  | ProcessCwd => string
  | ProjectConfigFileExists _ => bool
  | GetProjectConfig _ => ProjectConfig
  | GetLocalEnvInfo _ _ _ => option LocalEnvInfo
  | GetTeamProviderInfo _ _ _ => option TeamProviderInfo
  | GetAllEnvs => list string
  | PrintWarning _ => unit
  | PrintError _ => unit
  | EmitError _ => unit
  | ExitOnNextTick _ => unit
  | PromptInput _ => string
  | PromptList _ => string
  | ConfirmPrompt _ => bool
  | EditorSelection _ => string
  | NormalizeEditor _ => string
  | NormalizeProjectName _ => string
  | Throw _ => Empty_set
  end.

Abbreviation io := (prog Call Resp).

Definition call (c : Call) : io (Resp c) := Do c Ret.

Definition throw {A} (e : string) : io A :=
  Do (Throw e) (fun x : Empty_set => match x with end).

(** ** The world a run happens in *)

(** The persisted state of one project directory. *)
Record ProjectDir : Type := {
  projectConfigFile : option ProjectConfig;
  localEnvInfoFile : option LocalEnvInfo;
  teamProviderInfoFile : option TeamProviderInfo
}.

Definition noProject : ProjectDir :=
  {| projectConfigFile := None; localEnvInfoFile := None;
     teamProviderInfoFile := None |}.

Record World : Type := {
  cwd : string;                         (* the working directory *)
  disk : gmap string ProjectDir;        (* persisted state, by directory *)
  allEnvs : list string;                (* the known environment names *)
  typed : string -> list string;        (* lines typed at an input question, by name *)
  confirms : bool;                      (* the answer to a yes/no question *)
  cursor : nat;                         (* how far the user moves down a list *)
  pickedEditor : string;                (* the editor picked in editorSelection *)
  normalizeEditorImpl : string -> string;
  normalizeProjectNameImpl : string -> string
}.

Definition dirAt (w : World) (projectPath : string) : ProjectDir :=
  default noProject (disk w !! projectPath).

(** Modelled from the spec: [inquirer] is an external collaborator,
    [promptText(message, default?, validator?) -> string], which asks again
    until the validator accepts; an empty line stands for the default. *)
Fixpoint firstAccepted (q : InputQuestion) (lines : list string) : option string :=
  match lines with
  | [] => None
  | l :: rest =>
      let input := if String.eqb l "" then default "" (iq_default q) else l in
      if accepted (validate (iq_validate q) input) then Some input
      else firstAccepted q rest
  end.

(** Modelled from the spec: [promptChoice(message, choices) -> string]; the
    cursor starts on the first choice and wraps around. *)
Definition chosen (w : World) (choices : list string) : option string :=
  choices !! (cursor w mod length choices)%nat.

Definition ofOption {X} (o : option X) : reply X :=
  match o with
  | Some x => Value x
  | None => Waits
  end.

(** Modelled from the spec: the persisted-state readers of [stateManager]
    and [pathManager] ([amplify-cli-core]) are not part of the analysed
    file.  A read of a missing file gives the [default] when the caller
    passed [throwIfNotExist: false], and fails otherwise
    ("readLocalEnvironmentInfo(path, {tolerateMissing, default})"). *)
Definition readOr {X} (file : option X) (throwIfNotExist : bool)
  (dflt : option X) : reply (option X) :=
  match file with
  | Some x => Value (Some x)
  | None => if throwIfNotExist then Throws "file does not exist" else Value dflt
  end.

(** Modelled from the spec: [exitOnNextTick] ([amplify-cli-core]) is not
    part of the analysed file; the spec gives it as
    "terminateProcess(exitCode) -> never returns".  The other collaborators
    answer from the [World]. *)
Definition handle (w : World) (c : Call) : reply (Resp c) :=
  match c as c0 return reply (Resp c0) with
  | ProcessCwd => Value (cwd w)
  | ProjectConfigFileExists p =>
      Value (bool_decide (is_Some (projectConfigFile (dirAt w p))))
  | GetProjectConfig p =>
      match projectConfigFile (dirAt w p) with
      | Some pc => Value pc
      | None => Throws "project config does not exist"
      end
  | GetLocalEnvInfo p throwIfNotExist dflt =>
      readOr (localEnvInfoFile (dirAt w (default (cwd w) p))) throwIfNotExist dflt
  | GetTeamProviderInfo p throwIfNotExist dflt =>
      readOr (teamProviderInfoFile (dirAt w p)) throwIfNotExist dflt
  | GetAllEnvs => Value (allEnvs w)
  | PrintWarning _ => Value tt
  | PrintError _ => Value tt
  | EmitError _ => Value tt
  | ExitOnNextTick code => Exits code
  | PromptInput q => ofOption (firstAccepted q (typed w (iq_name q)))
  | PromptList q => ofOption (chosen w (lq_choices q))
  | ConfirmPrompt _ => Value (confirms w)
  | EditorSelection _ => Value (pickedEditor w)
  | NormalizeEditor e => Value (normalizeEditorImpl w e)
  | NormalizeProjectName n => Value (normalizeProjectNameImpl w n)
  | Throw e => Throws e
  end.

Abbreviation exec w p := (run (handle w) p).

(** ** The functions of [s0-analyzeProject.ts] *)

(** [context.exeInfo.inputParams.amplify && context.exeInfo.inputParams.amplify.<field>]:
    the parameter, when the guard lets it through. *)
Definition amplifyParam (field : AmplifyParams -> option string)
  (context : Context) : option string :=
  match amplify (inputParams (exeInfo context)) with
  | Some a => if truthy (field a) then field a else None
  | None => None
  end.

Definition isNewProject (context : Context) : io bool :=
  let* projectPath := call ProcessCwd in
  let* configFileExists := call (ProjectConfigFileExists projectPath) in
  Ret (if configFileExists then false else true).

Definition setProjectConfig (context : Context) (projectName : string) : io Context :=
  let* newProject := isNewProject context in
  let context := set_isNewProject newProject context in
  Ret (set_projectConfig
         {| pc_projectName := projectName;
            pc_version := CURRENT_PROJECT_CONFIG_VERSION;
            pc_frontend := None |} context).

Definition setExeInfo (context : Context) (projectPath : string)
  (defaultEditor envName : option string) : Context :=
  let e := exeInfo context in
  {| options := options context;
     exeInfo := {| inputParams := inputParams e;
                   exe_isNewProject := exe_isNewProject e;
                   exe_isNewEnv := exe_isNewEnv e;
                   exe_forcePush := exe_forcePush e;
                   exe_sourceEnvName := exe_sourceEnvName e;
                   exe_projectConfig := exe_projectConfig e;
                   exe_localEnvInfo :=
                     Some {| lei_projectPath := Some projectPath;
                             lei_defaultEditor := defaultEditor;
                             lei_envName := envName |};
                   exe_teamProviderInfo := Some ∅;
                   exe_metaData := Some ∅ |} |}.

(** [context.exeInfo.projectConfig.frontend = frontend] *)
Definition setFrontend (context : Context) (frontend : option string) : io Context :=
  match exe_projectConfig (exeInfo context) with
  | Some pc =>
      Ret (set_projectConfig
             {| pc_projectName := pc_projectName pc;
                pc_version := pc_version pc;
                pc_frontend := frontend |} context)
  | None => throw "TypeError: cannot set properties of undefined"
  end.

Definition projectNameQuestion (projectName : string) : InputQuestion :=
  {| iq_name := "inputProjectName";
     iq_message := "Enter a name for the project";
     iq_default := Some projectName;
     iq_validate := ValidateProjectName |}.

Definition getProjectName (context : Context) : io string :=
  let* projectPath := call ProcessCwd in
  if negb (truthyb (exe_isNewProject (exeInfo context))) then
    let* projectConfig := call (GetProjectConfig projectPath) in
    Ret (pc_projectName projectConfig)
  else
    match amplifyParam ap_projectName context with
    | Some name => call (NormalizeProjectName name)
    | None =>
        let* projectName := call (NormalizeProjectName (basename projectPath)) in
        if negb (yes (inputParams (exeInfo context))) then
          call (PromptInput (projectNameQuestion projectName))
        else Ret projectName
    end.

Definition getEditor (context : Context) : io (option string) :=
  match amplifyParam ap_defaultEditor context with
  | Some e =>
      let* editor := call (NormalizeEditor e) in
      Ret (Some editor)
  | None =>
      if negb (yes (inputParams (exeInfo context))) then
        let* editor := call (EditorSelection None) in
        Ret (Some editor)
      else Ret None
  end.

Definition getDefaultEnv (context : Context) : io (option string) :=
  let defaultEnv := "dev" in
  let* newProject := isNewProject context in
  if newProject then Ret (Some defaultEnv)
  else
    let* envs := call GetAllEnvs in
    if negb (bool_decide (defaultEnv ∈ envs)) then Ret (Some defaultEnv)
    else Ret None.

Definition envNameQuestion (defaultEnvName : option string) : InputQuestion :=
  {| iq_name := "envName";
     iq_message := "Enter a name for the environment";
     iq_default := defaultEnvName;
     iq_validate := ValidateEnvName |}.

Definition envQuestion (envs : list string) : ListQuestion :=
  {| lq_name := "envName";
     lq_message := "Choose the environment you would like to use:";
     lq_choices := envs |}.

Definition newEnvQuestion (context : Context) : io string :=
  let* defaultEnvName := getDefaultEnv context in
  call (PromptInput (envNameQuestion defaultEnvName)).

(** Lines 176-199 of [getEnvName]: the questions asked when no name was
    settled by the parameters. *)
Definition askEnvName (context : Context) : io string :=
  let* newProject := isNewProject context in
  if newProject then newEnvQuestion context
  else
    let* envs := call GetAllEnvs in
    if (0 <? length envs)%nat then
      let* useExisting :=
        call (ConfirmPrompt "Do you want to use an existing environment?") in
      if useExisting then call (PromptList (envQuestion envs))
      else newEnvQuestion context
    else newEnvQuestion context.

Definition getEnvName (context : Context) : io string :=
  match amplifyParam ap_envName context with
  | Some envName =>
      if isEnvNameValid envName then Ret envName
      else
        call (PrintError INVALID_ENV_NAME_MSG);;
        call (EmitError (InvalidEnvironmentNameError INVALID_ENV_NAME_MSG));;
        call (ExitOnNextTick 1);;
        askEnvName context
  | None =>
      (if yes (inputParams (exeInfo context)) then
         call (PrintError "Environment name missing");;
         call (EmitError (InvalidEnvironmentNameError INVALID_ENV_NAME_MSG));;
         call (ExitOnNextTick 1)
       else Ret tt);;
      askEnvName context
  end.

Definition isNewEnv (envName : string) : io bool :=
  let* projectPath := call ProcessCwd in
  let* teamProviderInfo := call (GetTeamProviderInfo projectPath false (Some ∅)) in
  match teamProviderInfo with
  | Some info => Ret (if truthyProperty info envName then false else true)
  | None => throw "TypeError: cannot read properties of undefined"
  end.

Definition getDefaultEditor : io (option string) :=
  let* projectPath := call ProcessCwd in
  let* localEnvInfo :=
    call (GetLocalEnvInfo (Some projectPath) false (Some emptyLocalEnvInfo)) in
  match localEnvInfo with
  | Some info => Ret (lei_defaultEditor info)
  | None => throw "TypeError: cannot read properties of undefined"
  end.

(** Lines 35-39 of [analyzeProject]: the stored editor, else [getEditor]. *)
Definition resolveEditor (context : Context) : io (option string) :=
  let* defaultEditor := getDefaultEditor in
  if negb (truthy defaultEditor) then getEditor context
  else Ret defaultEditor.

(** Lines 44-54 of [analyzeProject]: keep the name of the environment the
    project is on when a new one is added to it. *)
Definition saveSourceEnvName (context : Context) : io Context :=
  if truthyb (exe_isNewEnv (exeInfo context))
     && negb (truthyb (exe_isNewProject (exeInfo context))) then
    let* currentLocalEnvInfo := call (GetLocalEnvInfo None false None) in
    match currentLocalEnvInfo with
    | Some info => Ret (set_sourceEnvName (lei_envName info) context)
    | None => Ret context
    end
  else Ret context.

Definition analyzeProjectHeadless (context : Context) : io Context :=
  let* projectPath := call ProcessCwd in
  let projectName := basename projectPath in
  let* env := getDefaultEnv context in
  let* context := setProjectConfig context projectName in
  let context := setExeInfo context projectPath None env in
  let frontend := opt_frontend (options context) in
  if negb (truthy frontend) then
    call (PrintWarning "No frontend specified. Defaulting to android.");;
    setFrontend context (Some "android")
  else setFrontend context frontend.

(** The statements of [analyzeProject], grouped by the resolver they
    belong to. *)
Inductive stage : Type :=
| Entry               (* lines 27-30 *)
| ProjectIdentity     (* lines 31-32: isNewProject, getProjectName *)
| EnvironmentName     (* line 33: getEnvName *)
| Editor              (* lines 35-39: getDefaultEditor, getEditor *)
| EnvironmentClass    (* lines 41-54: isNewEnv, source environment *)
| Assembler.          (* lines 56-57: setProjectConfig, setExeInfo *)

Definition StagedResp (sc : stage * Call) : Type := Resp sc.2.

Abbreviation staged := (prog (stage * Call) StagedResp).

Fixpoint within {A} (s : stage) (p : io A) : staged A :=
  match p with
  | Ret a => Ret a
  | Do c k => Do (E := stage * Call) (R := StagedResp) (s, c) (fun x => within s (k x))
  end.

Definition analyzeProject (context : Context) : staged Context :=
  within Entry
    (if negb (truthy (opt_app (options context)))
        || negb (opt_quickstart (options context)) then
       call (PrintWarning
         "Note: It is recommended to run this command from the root of your app directory")
     else Ret tt);;
  let* projectPath := within Entry (call ProcessCwd) in
  let* newProject := within ProjectIdentity (isNewProject context) in
  let context := set_isNewProject newProject context in
  let* projectName := within ProjectIdentity (getProjectName context) in
  let* envName := within EnvironmentName (getEnvName context) in
  let* defaultEditor := within Editor (resolveEditor context) in
  let* newEnv := within EnvironmentClass (isNewEnv envName) in
  let context := set_isNewEnv newEnv context in
  let context := set_forcePush (opt_forcePush (options context)) context in
  let* context := within EnvironmentClass (saveSourceEnvName context) in
  let* context := within Assembler (setProjectConfig context projectName) in
  Ret (setExeInfo context projectPath defaultEditor (Some envName)).

(** The stage of a call does not change its answer. *)
Definition stagedHandle (w : World) (sc : stage * Call) : reply (StagedResp sc) :=
  handle w sc.2.

Abbreviation execStaged w p := (run (stagedHandle w) p).

(** ** The persisted state of the working directory *)

(** The project config file of the working directory, if there is one. *)
Definition persistedProjectConfig (w : World) : option ProjectConfig :=
  projectConfigFile (dirAt w (cwd w)).

Definition persistedLocalEnvInfo (w : World) : option LocalEnvInfo :=
  localEnvInfoFile (dirAt w (cwd w)).

(** The team/environment mapping of the working directory, empty when
    there is no file. *)
Definition persistedTeamProviderInfo (w : World) : TeamProviderInfo :=
  default ∅ (teamProviderInfoFile (dirAt w (cwd w))).

(** The answer of [isNewEnv] in the world [w]. *)
Definition isNewEnvIn (w : World) (envName : string) : bool :=
  if truthyProperty (persistedTeamProviderInfo w) envName then false else true.

Definition hasProject (w : World) : bool :=
  bool_decide (is_Some (persistedProjectConfig w)).

(** The default [getDefaultEnv] settles on in the world [w]. *)
Definition offeredDefault (w : World) : option string :=
  if negb (hasProject w) || negb (bool_decide ("dev" ∈ allEnvs w))
  then Some "dev" else None.

(** The [projectConfig] object written by [setProjectConfig]. *)
Definition newProjectConfig (projectName : string) : ProjectConfig :=
  {| pc_projectName := projectName;
     pc_version := CURRENT_PROJECT_CONFIG_VERSION;
     pc_frontend := None |}.

(** The context a run of [analyzeProject] returns; the initial one when it
    does not return. *)
Definition returnedContext (w : World) (context : Context) : Context :=
  match (execStaged w (analyzeProject context)).2 with
  | Returned context' => context'
  | _ => context
  end.

(** ** Kinds of calls *)

(** The interactive questions. *)
Definition isPrompt (c : Call) : bool :=
  match c with
  | PromptInput _ | PromptList _ | ConfirmPrompt _ | EditorSelection _ => true
  | _ => false
  end.

(** What [getEditor] does to resolve an editor. *)
Definition isEditorResolution (c : Call) : bool :=
  match c with
  | NormalizeEditor _ | EditorSelection _ => true
  | _ => false
  end.

(** An error message, a telemetry event, the end of the process, an
    exception. *)
Definition isFailure (c : Call) : bool :=
  match c with
  | PrintError _ | EmitError _ | ExitOnNextTick _ | Throw _ => true
  | _ => false
  end.

Definition isNormalization (c : Call) : bool :=
  match c with
  | NormalizeProjectName _ | NormalizeEditor _ => true
  | _ => false
  end.

(** ** Orders on the stages *)

(** The order in which [analyzeProject] goes through its stages. *)
Definition sourceRank (s : stage) : nat :=
  match s with
  | Entry => 0
  | ProjectIdentity => 1
  | EnvironmentName => 2
  | Editor => 3
  | EnvironmentClass => 4
  | Assembler => 5
  end.

(** The order Project-Identity, Editor, Environment, Assembler: both parts
    of the environment resolution after the editor. *)
Definition editorFirstRank (s : stage) : nat :=
  match s with
  | Entry => 0
  | ProjectIdentity => 1
  | Editor => 2
  | EnvironmentName => 3
  | EnvironmentClass => 3
  | Assembler => 4
  end.

Fixpoint nondecreasing (l : list nat) : bool :=
  match l with
  | a :: l' =>
      match l' with
      | b :: _ => (a <=? b)%nat && nondecreasing l'
      | [] => true
      end
  | [] => true
  end.

(** [between lo hi l]: [l] is nondecreasing and lies between [lo] and [hi]. *)
Definition between (lo hi : nat) (l : list nat) : Prop :=
  nondecreasing (lo :: l ++ [hi])%list = true.

(** The ranks of the stages of a run. *)
Definition ranks (rank : stage -> nat) (t : list (stage * Call)) : list nat :=
  (fun sc => rank sc.1) <$> t.

(** The stages of a run follow the order [rank]. *)
Definition followsOrder (rank : stage -> nat) (t : list (stage * Call)) : bool :=
  nondecreasing (ranks rank t).

(** ** Sample worlds *)

(** Modelled from the spec: [normalizeProjectName] of
    [amplify-helpers/project-name-validation] is not part of the analysed
    file; the spec gives normalization as "stripping disallowed
    characters", the allowed ones being letters and digits. *)
Definition stripDisallowed (projectName : string) : string :=
  string_of_list_ascii (List.filter is_alnum (list_ascii_of_string projectName)).

Definition sampleLines (question : string) : list string :=
  if String.eqb question "envName" then ["DEV"; "stage"] else [""].

Definition sampleWorld (d : gmap string ProjectDir) (envs : list string) : World :=
  {| cwd := "/home/me/shop";
     disk := d;
     allEnvs := envs;
     typed := sampleLines;
     confirms := true;
     cursor := 0;
     pickedEditor := "vscode";
     normalizeEditorImpl := fun e => e;
     normalizeProjectNameImpl := stripDisallowed |}.

(** A directory that holds no project. *)
Definition emptyDirWorld : World := sampleWorld ∅ [].

Definition shopDir : ProjectDir :=
  {| projectConfigFile :=
       Some {| pc_projectName := "shop";
               pc_version := OtherVersion "3.0";
               pc_frontend := Some "javascript" |};
     localEnvInfoFile :=
       Some {| lei_projectPath := Some "/home/me/shop";
               lei_defaultEditor := Some "vim";
               lei_envName := Some "dev" |};
     teamProviderInfoFile :=
       Some {[ "dev" := JsObject [("awscloudformation", JsObject [])] ]} |}.

(** A project with one environment, [dev]. *)
Definition shopWorld : World := sampleWorld {[ "/home/me/shop" := shopDir ]} ["dev"].

(** The same project, where the user declines the existing environment. *)
Definition shopWorldNewEnv : World :=
  {| cwd := cwd shopWorld;
     disk := disk shopWorld;
     allEnvs := allEnvs shopWorld;
     typed := typed shopWorld;
     confirms := false;
     cursor := cursor shopWorld;
     pickedEditor := pickedEditor shopWorld;
     normalizeEditorImpl := normalizeEditorImpl shopWorld;
     normalizeProjectNameImpl := normalizeProjectNameImpl shopWorld |}.

Definition sampleContext (a : option AmplifyParams) (y : bool) : Context :=
  {| options := {| opt_app := None; opt_quickstart := false;
                   opt_forcePush := false; opt_frontend := None |};
     exeInfo := {| inputParams := {| amplify := a; yes := y |};
                   exe_isNewProject := None;
                   exe_isNewEnv := None;
                   exe_forcePush := None;
                   exe_sourceEnvName := None;
                   exe_projectConfig := None;
                   exe_localEnvInfo := None;
                   exe_teamProviderInfo := None;
                   exe_metaData := None |} |}.

Definition sampleParams (projectName envName defaultEditor : option string)
  : option AmplifyParams :=
  Some {| ap_projectName := projectName; ap_envName := envName;
          ap_defaultEditor := defaultEditor |}.

(** ** Outcomes in sequence *)

(** The outcome of a sequence: what follows only happens after a return. *)
Definition thenOutcome {A B} (o : outcome A) (f : A -> outcome B) : outcome B :=
  match o with
  | Returned a => f a
  | Exited code => Exited code
  | Threw e => Threw e
  | Blocked => Blocked
  end.

(** The calls whose answer can be an exception: an explicit [throw], the
    read of the project config, and the reads made with
    [throwIfNotExist: true]. *)
Definition canThrow (c : Call) : bool :=
  match c with
  | Throw _ | GetProjectConfig _ => true
  | GetLocalEnvInfo _ throwIfNotExist _ => throwIfNotExist
  | GetTeamProviderInfo _ throwIfNotExist _ => throwIfNotExist
  | _ => false
  end.

(** The calls that wait for the user. *)
Definition canWait (c : Call) : bool :=
  match c with
  | PromptInput _ | PromptList _ => true
  | _ => false
  end.

(** The parameters with which [getEnvName] ends the process (lines
    149-161): a name that got through the guard and does not match, or
    [yes] with no name through the guard. *)
Definition envNameFatal (context : Context) : bool :=
  match amplifyParam ap_envName context with
  | Some envName => negb (isEnvNameValid envName)
  | None => yes (inputParams (exeInfo context))
  end.

(** The editor [getEditor] settles on in the world [w]. *)
Definition freshEditor (w : World) (context : Context) : option string :=
  match amplifyParam ap_defaultEditor context with
  | Some e => Some (normalizeEditorImpl w e)
  | None =>
      if yes (inputParams (exeInfo context)) then None
      else Some (pickedEditor w)
  end.

(** The project name a run with [yes] set settles on: the stored one, else
    the parameter or the folder name, normalized. *)
Definition headlessProjectName (w : World) (context : Context) : string :=
  match persistedProjectConfig w with
  | Some pc => pc_projectName pc
  | None =>
      normalizeProjectNameImpl w
        (default (basename (cwd w)) (amplifyParam ap_projectName context))
  end.

(** The note [analyzeProject] prints on entry. *)
Definition ROOT_NOTE : string :=
  "Note: It is recommended to run this command from the root of your app directory".

Definition isWarning (c : Call) : bool :=
  match c with
  | PrintWarning _ => true
  | _ => false
  end.

(** A context left by an earlier step, every property of [exeInfo] set. *)
Definition staleContext : Context :=
  {| options := {| opt_app := Some "https://github.com/me/shop";
                   opt_quickstart := true;
                   opt_forcePush := true;
                   opt_frontend := Some "ios" |};
     exeInfo := {| inputParams := {| amplify := sampleParams None (Some "dev") None;
                                     yes := true |};
                   exe_isNewProject := Some true;
                   exe_isNewEnv := Some true;
                   exe_forcePush := Some false;
                   exe_sourceEnvName := Some "old";
                   exe_projectConfig :=
                     Some {| pc_projectName := "other";
                             pc_version := OtherVersion "2";
                             pc_frontend := Some "ios" |};
                   exe_localEnvInfo := None;
                   exe_teamProviderInfo :=
                     Some {[ "old" := JsObject [("Region", JsString "eu-west-1")] ]};
                   exe_metaData := Some {[ "k" := "v" ]} |} |}.

Definition mapOutcome {A B} (g : A -> B) (o : outcome A) : outcome B :=
  match o with
  | Returned a => Returned (g a)
  | Exited code => Exited code
  | Threw e => Threw e
  | Blocked => Blocked
  end.

(** Whether lines 46-53 assigned [sourceEnvName] in the run that returned
    [context']. *)
Definition sourceAssigned (w : World) (context' : Context) : bool :=
  truthyb (exe_isNewEnv (exeInfo context'))
  && negb (truthyb (exe_isNewProject (exeInfo context')))
  && bool_decide (is_Some (persistedLocalEnvInfo w)).

(** A project whose team-provider file holds [{"dev": null}]. *)
Definition nullEnvWorld : World :=
  sampleWorld
    {[ "/home/me/shop" :=
         {| projectConfigFile := projectConfigFile shopDir;
            localEnvInfoFile := localEnvInfoFile shopDir;
            teamProviderInfoFile := Some {[ "dev" := JsNull ]} |} ]}
    ["dev"].



(** A project whose known environments were not named by this tool. *)
Definition legacyWorld : World :=
  sampleWorld {[ "/home/me/shop" := shopDir ]} ["Prod_1"; "dev"].

(** ** Running programs *)

Section Run.
Context {E : Type} {R : E -> Type}.
Variable h : forall e : E, reply (R e).

Lemma run_bind {A B} (p : prog E R A) (f : A -> prog E R B) :
  run h (bind p f) =
    match (run h p).2 with
    | Returned a => (((run h p).1 ++ (run h (f a)).1)%list, (run h (f a)).2)
    | Exited code => ((run h p).1, Exited code)
    | Threw e => ((run h p).1, Threw e)
    | Blocked => ((run h p).1, Blocked)
    end.
Proof.
  induction p as [a | e k IH]; simpl.
  - by destruct (run h (f a)).
  - destruct (h e) as [x | code | err |]; simpl; try done.
    rewrite IH. by destruct (run h (k x)).2.
Qed.

(** A call of a sequence is a call of its first part, or of what follows
    once the first part has returned. *)
Lemma elem_of_run_bind {A B} (p : prog E R A) (f : A -> prog E R B) (e : E) :
  e ∈ (run h (bind p f)).1 ->
  e ∈ (run h p).1 \/
  exists a, (run h p).2 = Returned a /\ e ∈ (run h (f a)).1.
Proof.
  rewrite run_bind. destruct (run h p).2 as [a | | |] eqn:Hp; simpl; auto.
  rewrite elem_of_app. intros [He | He]; eauto.
Qed.

(** A sequence returns when both parts do. *)
Lemma returned_bind {A B} (p : prog E R A) (f : A -> prog E R B) (b : B) :
  (run h (bind p f)).2 = Returned b ->
  exists a, (run h p).2 = Returned a /\ (run h (f a)).2 = Returned b.
Proof.
  rewrite run_bind. destruct (run h p).2 as [a | | |] eqn:Hp; simpl; try done.
  eauto.
Qed.

(** The outcome of a sequence from the outcome of its first part. *)
Lemma outcome_bind_returned {A B} (p : prog E R A) (f : A -> prog E R B) (a : A) :
  (run h p).2 = Returned a -> (run h (bind p f)).2 = (run h (f a)).2.
Proof. intros Hp. rewrite run_bind, Hp. done. Qed.

Lemma outcome_bind_exited {A B} (p : prog E R A) (f : A -> prog E R B) (code : Z) :
  (run h p).2 = Exited code -> (run h (bind p f)).2 = Exited code.
Proof. intros Hp. rewrite run_bind, Hp. done. Qed.

Lemma never_bind P {A B} (p : prog E R A) (f : A -> prog E R B) :
  never P p -> (forall a, never P (f a)) -> never P (bind p f).
Proof.
  induction 1 as [a | e k He Hk IH]; intros Hf; simpl; [done |].
  constructor; auto.
Qed.

Lemma never_run P {A} (p : prog E R A) (e : E) :
  never P p -> e ∈ (run h p).1 -> P e = false.
Proof.
  induction 1 as [a | e' k He Hk IH]; simpl.
  - intros Hin. by apply elem_of_nil in Hin.
  - destruct (h e') as [x | code | err |]; simpl;
      rewrite ?elem_of_cons, ?elem_of_nil; intros [-> | Hin];
      first [done | by eapply IH].
Qed.
End Run.

(** Tagging a program with its stage tags its calls and nothing else. *)
Lemma run_within {A} (w : World) (s : stage) (p : io A) :
  execStaged w (within s p) = (pair s <$> (exec w p).1, (exec w p).2).
Proof.
  induction p as [a | c k IH]; simpl; [done |].
  unfold stagedHandle at 1. simpl.
  destruct (handle w c) as [x | code | err |]; simpl; try done.
  by rewrite IH.
Qed.

Lemma elem_of_within {A} (w : World) (s s' : stage) (p : io A) (c : Call) :
  (s', c) ∈ (execStaged w (within s p)).1 -> s' = s /\ c ∈ (exec w p).1.
Proof.
  rewrite run_within. simpl. rewrite list_elem_of_fmap.
  intros [c' [[= -> ->] Hin]]. done.
Qed.

(** ** The parameter guard *)

(** A parameter gets through the guard when the [amplify] object is there
    and the property is a non-empty string. *)
Lemma amplifyParam_Some field context s :
  amplifyParam field context = Some s <->
  exists a, amplify (inputParams (exeInfo context)) = Some a
            /\ field a = Some s /\ s <> "".
Proof.
  unfold amplifyParam, truthy.
  destruct (amplify (inputParams (exeInfo context))) as [a |].
  - destruct (field a) as [s' |] eqn:Hfield.
    + destruct (String.eqb_spec s' "") as [-> | Hne]; simpl; split.
      * done.
      * intros (a' & [= <-] & Hs & Hne). congruence.
      * intros [= <-]. eauto.
      * intros (a' & [= <-] & Hs & _). congruence.
    + split; [done |]. intros (a' & [= <-] & Hs & _). congruence.
  - split; [done |]. intros (a' & Ha & _). done.
Qed.

(** An empty name does not get through the guard: the functions go on as
    if the parameter had not been given. *)
Lemma amplifyParam_empty field context a :
  amplify (inputParams (exeInfo context)) = Some a ->
  field a = Some "" ->
  amplifyParam field context = None.
Proof. intros Ha Hfield. unfold amplifyParam. by rewrite Ha, Hfield. Qed.

(** [isEnvNameValid] is the match against [^[a-z]{2,10}$]. *)
Lemma is_lower_spec (c : ascii) :
  is_lower c = true <-> ("a" <=? c)%char = true /\ (c <=? "z")%char = true.
Proof.
  destruct c as [[] [] [] [] [] [] [] []]; vm_compute; intuition congruence.
Qed.

Lemma isEnvNameValid_spec (s : string) :
  isEnvNameValid s = true <->
  (2 <= length (list_ascii_of_string s) <= 10)%nat
  /\ Forall (fun c => ("a" <=? c)%char = true /\ (c <=? "z")%char = true)
       (list_ascii_of_string s).
Proof.
  unfold isEnvNameValid.
  rewrite !andb_true_iff, !Nat.leb_le, forallb_forall, Forall_forall.
  split.
  - intros [Hlen Hall]. split; [done |].
    intros c Hc%list_elem_of_In. by apply is_lower_spec, Hall.
  - intros [Hlen Hall]. split; [done |].
    intros c Hc%list_elem_of_In. by apply is_lower_spec, Hall.
Qed.

(** ** Environment name: parameters *)

(** C1, as the source has it.  When the [amplify] parameters hold a
    non-empty environment name: a name matching [^[a-z]{2,10}$] is
    returned as it is and no call is made, so nothing is asked; any other
    name makes the function print the error, emit the usage error and end
    the process with status 1, and no name is returned. *)
Theorem getEnvName_explicit_parameter (w : World) (context : Context)
    (a : AmplifyParams) (envName : string) :
  amplify (inputParams (exeInfo context)) = Some a ->
  ap_envName a = Some envName ->
  envName <> "" ->
  exec w (getEnvName context) =
    if isEnvNameValid envName then ([], Returned envName)
    else ([PrintError INVALID_ENV_NAME_MSG;
           EmitError (InvalidEnvironmentNameError INVALID_ENV_NAME_MSG);
           ExitOnNextTick 1], Exited 1).
Proof.
  intros Ha Hname Hne.
  assert (amplifyParam ap_envName context = Some envName) as Hparam
    by (apply amplifyParam_Some; eauto).
  unfold getEnvName. rewrite Hparam.
  by destruct (isEnvNameValid envName).
Qed.

Lemma getEnvName_explicit_parameter_witness :
  exec emptyDirWorld
       (getEnvName (sampleContext (sampleParams None (Some "dev") None) true))
    = ([], Returned "dev")
  /\ exec emptyDirWorld
       (getEnvName (sampleContext (sampleParams None (Some "DEV") None) false))
    = ([PrintError INVALID_ENV_NAME_MSG;
        EmitError (InvalidEnvironmentNameError INVALID_ENV_NAME_MSG);
        ExitOnNextTick 1], Exited 1).
Proof.
  split.
  - exact (getEnvName_explicit_parameter emptyDirWorld
             (sampleContext (sampleParams None (Some "dev") None) true)
             {| ap_projectName := None; ap_envName := Some "dev";
                ap_defaultEditor := None |}
             "dev" eq_refl eq_refl ltac:(discriminate)).
  - exact (getEnvName_explicit_parameter emptyDirWorld
             (sampleContext (sampleParams None (Some "DEV") None) false)
             {| ap_projectName := None; ap_envName := Some "DEV";
                ap_defaultEditor := None |}
             "DEV" eq_refl eq_refl ltac:(discriminate)).
Defined.

(** C1, as stated, fails for the empty string: it does not match, yet
    given as the environment name of an interactive run it is taken as no
    parameter; nothing is printed, the process goes on, the question is
    asked and the answer is returned. *)
Lemma getEnvName_empty_parameter :
  let context := sampleContext (sampleParams None (Some "") None) false in
  ap_envName <$> amplify (inputParams (exeInfo context)) = Some (Some "")
  /\ isEnvNameValid "" = false
  /\ exec emptyDirWorld (getEnvName context)
     = ([ProcessCwd; ProjectConfigFileExists "/home/me/shop";
         ProcessCwd; ProjectConfigFileExists "/home/me/shop";
         PromptInput {| iq_name := "envName";
                        iq_message := "Enter a name for the environment";
                        iq_default := Some "dev";
                        iq_validate := ValidateEnvName |}],
        Returned "stage").
Proof. repeat split; reflexivity. Qed.

Lemma getEnvName_missing_exits (w : World) (context : Context) :
  yes (inputParams (exeInfo context)) = true ->
  amplifyParam ap_envName context = None ->
  exec w (getEnvName context) =
    ([PrintError "Environment name missing";
      EmitError (InvalidEnvironmentNameError INVALID_ENV_NAME_MSG);
      ExitOnNextTick 1], Exited 1).
Proof.
  intros Hyes Hparam. unfold getEnvName. by rewrite Hparam, Hyes.
Qed.

(** ** What each function does in a given world *)

Lemma hasProject_false (w : World) :
  hasProject w = false <-> persistedProjectConfig w = None.
Proof.
  unfold hasProject. rewrite bool_decide_eq_false, <- eq_None_not_Some. done.
Qed.

Lemma hasProject_true (w : World) :
  hasProject w = true <-> exists pc, persistedProjectConfig w = Some pc.
Proof. unfold hasProject. by rewrite bool_decide_eq_true. Qed.

Lemma exec_isNewProject (w : World) (context : Context) :
  exec w (isNewProject context) =
    ([ProcessCwd; ProjectConfigFileExists (cwd w)], Returned (negb (hasProject w))).
Proof.
  unfold isNewProject, hasProject, persistedProjectConfig. simpl.
  by destruct (bool_decide _).
Qed.

Lemma exec_getDefaultEnv (w : World) (context : Context) :
  exec w (getDefaultEnv context) =
    (if hasProject w
     then [ProcessCwd; ProjectConfigFileExists (cwd w); GetAllEnvs]
     else [ProcessCwd; ProjectConfigFileExists (cwd w)],
     Returned (offeredDefault w)).
Proof.
  unfold getDefaultEnv, offeredDefault.
  rewrite run_bind, exec_isNewProject. simpl.
  destruct (hasProject w); simpl; [| done].
  by destruct (bool_decide _).
Qed.

Lemma exec_setProjectConfig (w : World) (context : Context) (projectName : string) :
  exec w (setProjectConfig context projectName) =
    ([ProcessCwd; ProjectConfigFileExists (cwd w)],
     Returned (set_projectConfig (newProjectConfig projectName)
                 (set_isNewProject (negb (hasProject w)) context))).
Proof.
  unfold setProjectConfig. rewrite run_bind, exec_isNewProject. done.
Qed.

Lemma exec_isNewEnv (w : World) (envName : string) :
  exec w (isNewEnv envName) =
    ([ProcessCwd; GetTeamProviderInfo (cwd w) false (Some ∅)],
     Returned (isNewEnvIn w envName)).
Proof.
  unfold isNewEnv, isNewEnvIn, persistedTeamProviderInfo. simpl.
  by destruct (teamProviderInfoFile (dirAt w (cwd w))).
Qed.

Lemma exec_getDefaultEditor (w : World) :
  exec w getDefaultEditor =
    ([ProcessCwd; GetLocalEnvInfo (Some (cwd w)) false (Some emptyLocalEnvInfo)],
     Returned (lei_defaultEditor (default emptyLocalEnvInfo (persistedLocalEnvInfo w)))).
Proof.
  unfold getDefaultEditor, persistedLocalEnvInfo. simpl.
  by destruct (localEnvInfoFile (dirAt w (cwd w))).
Qed.

Lemma exec_saveSourceEnvName (w : World) (context : Context) :
  exec w (saveSourceEnvName context) =
    if truthyb (exe_isNewEnv (exeInfo context))
       && negb (truthyb (exe_isNewProject (exeInfo context)))
    then ([GetLocalEnvInfo None false None],
          Returned (match persistedLocalEnvInfo w with
                    | Some info => set_sourceEnvName (lei_envName info) context
                    | None => context
                    end))
    else ([], Returned context).
Proof.
  unfold saveSourceEnvName, persistedLocalEnvInfo.
  destruct (_ && _); simpl; [| done].
  by destruct (localEnvInfoFile (dirAt w (cwd w))).
Qed.

(** What a run of [analyzeProject] that returns has gone through. *)
Lemma analyzeProject_returned (w : World) (context context' : Context) :
  (execStaged w (analyzeProject context)).2 = Returned context' ->
  exists projectName envName defaultEditor context4,
    let context1 := set_isNewProject (negb (hasProject w)) context in
    let newEnv := isNewEnvIn w envName in
    (exec w (getProjectName context1)).2 = Returned projectName
    /\ (exec w (getEnvName context1)).2 = Returned envName
    /\ (exec w (resolveEditor context1)).2 = Returned defaultEditor
    /\ (exec w (saveSourceEnvName
                  (set_forcePush (opt_forcePush (options context))
                     (set_isNewEnv newEnv context1)))).2 = Returned context4
    /\ context' =
         setExeInfo
           (set_projectConfig (newProjectConfig projectName)
              (set_isNewProject (negb (hasProject w)) context4))
           (cwd w) defaultEditor (Some envName).
Proof.
  unfold analyzeProject. intros Hrun.
  apply returned_bind in Hrun as (_ & _ & Hrun).
  apply returned_bind in Hrun as (projectPath & Hcwd & Hrun).
  injection Hcwd as <-.
  apply returned_bind in Hrun as (newProject & HnewProject & Hrun).
  rewrite run_within, exec_isNewProject in HnewProject. injection HnewProject as <-.
  apply returned_bind in Hrun as (projectName & HprojectName & Hrun).
  apply returned_bind in Hrun as (envName & HenvName & Hrun).
  apply returned_bind in Hrun as (defaultEditor & Heditor & Hrun).
  apply returned_bind in Hrun as (newEnv & HnewEnv & Hrun).
  rewrite run_within, exec_isNewEnv in HnewEnv. injection HnewEnv as <-.
  apply returned_bind in Hrun as (context4 & Hsource & Hrun).
  apply returned_bind in Hrun as (context5 & Hconfig & Hrun).
  rewrite run_within, exec_setProjectConfig in Hconfig. injection Hconfig as <-.
  injection Hrun as <-.
  rewrite run_within in HprojectName. rewrite run_within in HenvName.
  rewrite run_within in Heditor. rewrite run_within in Hsource.
  exists projectName, envName, defaultEditor, context4. done.
Qed.

(** The flags and names a returned context carries. *)
Lemma saveSourceEnvName_flags (w : World) (context context4 : Context) :
  (exec w (saveSourceEnvName context)).2 = Returned context4 ->
  exe_isNewEnv (exeInfo context4) = exe_isNewEnv (exeInfo context)
  /\ exe_isNewProject (exeInfo context4) = exe_isNewProject (exeInfo context).
Proof.
  rewrite exec_saveSourceEnvName.
  destruct (_ && _); simpl; [| by intros [= <-]].
  destruct (persistedLocalEnvInfo w); by intros [= <-].
Qed.

(** ** Project identity *)

(** C3. [isNewProject] answers true exactly when the working directory has
    no project config file.  When it has one, [getProjectName] returns the
    project name stored in it, after reading the file and nothing else: no
    question, no validation.  A context returned by [analyzeProject]
    carries that flag and that name. *)
Theorem project_identity (w : World) (context : Context) :
  (exists b,
     exec w (isNewProject context) =
       ([ProcessCwd; ProjectConfigFileExists (cwd w)], Returned b)
     /\ (b = true <-> persistedProjectConfig w = None))
  /\ (forall pc, persistedProjectConfig w = Some pc ->
        exec w (getProjectName (set_isNewProject false context)) =
          ([ProcessCwd; GetProjectConfig (cwd w)], Returned (pc_projectName pc)))
  /\ (forall context',
        (execStaged w (analyzeProject context)).2 = Returned context' ->
        (exe_isNewProject (exeInfo context') = Some true
         <-> persistedProjectConfig w = None)
        /\ (forall pc, persistedProjectConfig w = Some pc ->
              exe_isNewProject (exeInfo context') = Some false
              /\ pc_projectName <$> exe_projectConfig (exeInfo context')
                 = Some (pc_projectName pc))).
Proof.
  assert (forall pc, persistedProjectConfig w = Some pc ->
            exec w (getProjectName (set_isNewProject false context)) =
              ([ProcessCwd; GetProjectConfig (cwd w)],
               Returned (pc_projectName pc))) as Hstored.
  { intros pc Hpc. unfold getProjectName. simpl.
    unfold persistedProjectConfig in Hpc. by rewrite Hpc. }
  split; [| split; [done |]].
  - exists (negb (hasProject w)). split; [apply exec_isNewProject |].
    rewrite negb_true_iff. apply hasProject_false.
  - intros context' Hrun.
    apply analyzeProject_returned in Hrun
      as (projectName & envName & defaultEditor & context4
          & HprojectName & _ & _ & _ & ->).
    simpl. split.
    + rewrite <- hasProject_false. destruct (hasProject w); simpl; split; congruence.
    + intros pc Hpc.
      assert (hasProject w = true) as Hhas by (apply hasProject_true; eauto).
      rewrite Hhas in HprojectName |- *.
      change (negb true) with false in HprojectName.
      rewrite (Hstored pc Hpc) in HprojectName. by injection HprojectName as <-.
Qed.

Lemma project_identity_witness :
  exec shopWorld (getProjectName (set_isNewProject false (sampleContext None true)))
    = ([ProcessCwd; GetProjectConfig "/home/me/shop"], Returned "shop")
  /\ exe_isNewProject
       (exeInfo (returnedContext shopWorld (sampleContext None false)))
     = Some false
  /\ pc_projectName <$> exe_projectConfig
       (exeInfo (returnedContext shopWorld (sampleContext None false)))
     = Some "shop".
Proof.
  split.
  - exact (proj1 (proj2 (project_identity shopWorld (sampleContext None true)))
             {| pc_projectName := "shop";
                pc_version := OtherVersion "3.0";
                pc_frontend := Some "javascript" |} eq_refl).
  - exact (proj2 (proj2 (proj2 (project_identity shopWorld (sampleContext None false)))
                    (returnedContext shopWorld (sampleContext None false)) eq_refl)
             {| pc_projectName := "shop";
                pc_version := OtherVersion "3.0";
                pc_frontend := Some "javascript" |} eq_refl).
Defined.

(** ** New environments *)

(** A name that matches [^[a-z]{2,10}$] is no property of
    [Object.prototype]. *)
Lemma valid_not_inherited (envName : string) :
  isEnvNameValid envName = true -> envName ∉ objectPrototype.
Proof.
  intros Hvalid Hin. unfold objectPrototype in Hin.
  repeat (apply elem_of_cons in Hin as [-> | Hin];
          [vm_compute in Hvalid; discriminate Hvalid |]).
  by apply elem_of_nil in Hin.
Qed.

Lemma isNewEnvIn_false (w : World) (envName : string) :
  isNewEnvIn w envName = false
  <-> (exists v, persistedTeamProviderInfo w !! envName = Some v
                 /\ jsTruthy v = true)
      \/ (persistedTeamProviderInfo w !! envName = None
          /\ envName ∈ objectPrototype).
Proof.
  unfold isNewEnvIn, truthyProperty.
  destruct (persistedTeamProviderInfo w !! envName) as [v |].
  - destruct (jsTruthy v) eqn:Hv; split; try done.
    + intros _. left. eauto.
    + intros [(v' & [= <-] & Hv') | [? _]]; congruence.
  - case_bool_decide as Hin; split; try done.
    + intros _. right. done.
    + intros [(v' & ? & _) | [_ Hin']]; done.
Qed.

(** C4, as the source has it.  [isNewEnv] reads the team/environment
    mapping of the working directory, an absent file standing for the
    empty mapping, and answers false exactly when the mapping has a truthy
    property of that name: a key whose stored value is truthy or, for a
    name that is no key, a property inherited from [Object.prototype].
    For a name that matches [^[a-z]{2,10}$] only the first case occurs.  A
    context returned by [analyzeProject] carries that answer for the name
    it resolved. *)
Theorem isNewEnv_iff_truthy (w : World) (context : Context) :
  (forall envName, exists b,
     exec w (isNewEnv envName) =
       ([ProcessCwd; GetTeamProviderInfo (cwd w) false (Some ∅)], Returned b)
     /\ (b = false
         <-> (exists v, persistedTeamProviderInfo w !! envName = Some v
                        /\ jsTruthy v = true)
             \/ (persistedTeamProviderInfo w !! envName = None
                 /\ envName ∈ objectPrototype))
     /\ (isEnvNameValid envName = true ->
         (b = false
          <-> exists v, persistedTeamProviderInfo w !! envName = Some v
                        /\ jsTruthy v = true)))
  /\ (forall context',
        (execStaged w (analyzeProject context)).2 = Returned context' ->
        exists envName b,
          lei_envName <$> exe_localEnvInfo (exeInfo context') = Some (Some envName)
          /\ exe_isNewEnv (exeInfo context') = Some b
          /\ (b = false
              <-> (exists v, persistedTeamProviderInfo w !! envName = Some v
                             /\ jsTruthy v = true)
                  \/ (persistedTeamProviderInfo w !! envName = None
                      /\ envName ∈ objectPrototype))).
Proof.
  split.
  - intros envName. exists (isNewEnvIn w envName).
    split; [apply exec_isNewEnv |]. split; [apply isNewEnvIn_false |].
    intros Hvalid. rewrite isNewEnvIn_false. split; [| by left].
    intros [Hkey | [_ Hin]]; [done |].
    by apply valid_not_inherited in Hin.
  - intros context' Hrun.
    apply analyzeProject_returned in Hrun
      as (projectName & envName & defaultEditor & context4
          & _ & _ & _ & Hsource & ->).
    apply saveSourceEnvName_flags in Hsource as [HnewEnv _].
    exists envName, (isNewEnvIn w envName). simpl. split; [done |].
    split; [exact HnewEnv | apply isNewEnvIn_false].
Qed.

Lemma isNewEnv_iff_truthy_witness :
  exe_isNewEnv (exeInfo (returnedContext shopWorld (sampleContext None false)))
    = Some false
  /\ exists v, persistedTeamProviderInfo shopWorld !! "dev" = Some v
               /\ jsTruthy v = true.
Proof.
  destruct (proj2 (isNewEnv_iff_truthy shopWorld (sampleContext None false))
              (returnedContext shopWorld (sampleContext None false)) eq_refl)
    as (envName & b & Hname & Hb & Hkey).
  split; [reflexivity |].
  injection Hname as <-. injection Hb as <-.
  destruct (proj1 Hkey eq_refl) as [Hstored | [Habsent _]].
  - exact Hstored.
  - vm_compute in Habsent. discriminate Habsent.
Defined.

(** C4, as stated, fails in both directions.  A key whose stored value is
    [null] leaves the environment new; and [constructor], which is no key
    of the empty mapping, is not new, being inherited by every object. *)
Lemma isNewEnv_not_key_membership :
  exec nullEnvWorld (isNewEnv "dev")
    = ([ProcessCwd; GetTeamProviderInfo "/home/me/shop" false (Some ∅)],
       Returned true)
  /\ "dev" ∈ dom (persistedTeamProviderInfo nullEnvWorld)
  /\ exec emptyDirWorld (isNewEnv "constructor")
      = ([ProcessCwd; GetTeamProviderInfo "/home/me/shop" false (Some ∅)],
         Returned false)
  /\ persistedTeamProviderInfo emptyDirWorld !! "constructor" = None.
Proof.
  split; [reflexivity |]. split; [| split; reflexivity].
  apply elem_of_dom. exists JsNull. reflexivity.
Qed.

(** ** Calls a function can never make *)

Ltac never_step :=
  lazymatch goal with
  | |- never _ (bind _ _) => apply never_bind
  | |- never _ (Ret _) => apply never_Ret
  | |- never _ (call _) => apply never_Do; [reflexivity | intros; apply never_Ret]
  | |- never _ (throw _) => apply never_Do; [reflexivity | intros []]
  | |- never _ (if ?b then _ else _) => destruct b
  | |- never _ (match ?x with _ => _ end) => destruct x
  | |- forall _, _ => intros
  end.

Ltac solve_never := repeat never_step.

Lemma isNewProject_never (P : Call -> bool) (context : Context) :
  P ProcessCwd = false ->
  (forall p, P (ProjectConfigFileExists p) = false) ->
  never P (isNewProject context).
Proof.
  intros Hcwd Hexists. unfold isNewProject.
  apply never_bind; [by apply never_Do; [| intros; apply never_Ret] |].
  intros projectPath.
  apply never_bind; [by apply never_Do; [| intros; apply never_Ret] |].
  intros. apply never_Ret.
Qed.

Lemma getProjectName_never_editor (context : Context) :
  never isEditorResolution (getProjectName context).
Proof. unfold getProjectName. solve_never. Qed.

Lemma getEnvName_never_editor (context : Context) :
  never isEditorResolution (getEnvName context).
Proof.
  unfold getEnvName, askEnvName, newEnvQuestion, getDefaultEnv.
  solve_never; by apply isNewProject_never.
Qed.

(** The calls of [analyzeProject], stage by stage. *)
Lemma analyzeProject_calls (w : World) (context : Context) (s : stage) (c : Call) :
  (s, c) ∈ (execStaged w (analyzeProject context)).1 ->
  let context1 := set_isNewProject (negb (hasProject w)) context in
  (s = Entry /\ isPrompt c = false /\ isEditorResolution c = false)
  \/ (s = ProjectIdentity
      /\ (c ∈ (exec w (isNewProject context)).1
          \/ c ∈ (exec w (getProjectName context1)).1))
  \/ (s = EnvironmentName /\ c ∈ (exec w (getEnvName context1)).1)
  \/ (s = Editor /\ c ∈ (exec w (resolveEditor context1)).1)
  \/ (s = EnvironmentClass
      /\ (c = ProcessCwd
          \/ c = GetTeamProviderInfo (cwd w) false (Some ∅)
          \/ c = GetLocalEnvInfo None false None))
  \/ (s = Assembler /\ c ∈ (exec w (isNewProject context)).1).
Proof.
  intros Hin context1. subst context1. unfold analyzeProject in Hin.
  apply elem_of_run_bind in Hin as [Hin | (_ & _ & Hin)].
  { apply elem_of_within in Hin as [-> Hin]. left. split; [done |].
    destruct (_ || _); simpl in Hin.
    - apply list_elem_of_singleton in Hin as ->. done.
    - by apply elem_of_nil in Hin. }
  apply elem_of_run_bind in Hin as [Hin | (projectPath & _ & Hin)].
  { apply elem_of_within in Hin as [-> Hin]. left. split; [done |].
    simpl in Hin. apply list_elem_of_singleton in Hin as ->. done. }
  apply elem_of_run_bind in Hin as [Hin | (newProject & HnewProject & Hin)].
  { apply elem_of_within in Hin as [-> Hin]. right; left. auto. }
  rewrite run_within, exec_isNewProject in HnewProject. injection HnewProject as <-.
  apply elem_of_run_bind in Hin as [Hin | (projectName & _ & Hin)].
  { apply elem_of_within in Hin as [-> Hin]. right; left. auto. }
  apply elem_of_run_bind in Hin as [Hin | (envName & _ & Hin)].
  { apply elem_of_within in Hin as [-> Hin]. right; right; left. auto. }
  apply elem_of_run_bind in Hin as [Hin | (defaultEditor & _ & Hin)].
  { apply elem_of_within in Hin as [-> Hin]. do 3 right; left. auto. }
  apply elem_of_run_bind in Hin as [Hin | (newEnv & _ & Hin)].
  { apply elem_of_within in Hin as [-> Hin]. do 4 right; left. split; [done |].
    rewrite exec_isNewEnv in Hin. simpl in Hin.
    apply elem_of_cons in Hin as [-> | Hin]; [auto |].
    apply list_elem_of_singleton in Hin as ->. auto. }
  apply elem_of_run_bind in Hin as [Hin | (context4 & _ & Hin)].
  { apply elem_of_within in Hin as [-> Hin]. do 4 right; left. split; [done |].
    rewrite exec_saveSourceEnvName in Hin.
    destruct (_ && _); simpl in Hin.
    - apply list_elem_of_singleton in Hin as ->. auto.
    - by apply elem_of_nil in Hin. }
  apply elem_of_run_bind in Hin as [Hin | (context5 & _ & Hin)].
  { apply elem_of_within in Hin as [-> Hin]. do 5 right. split; [done |].
    rewrite exec_setProjectConfig in Hin. by rewrite exec_isNewProject. }
  simpl in Hin. by apply elem_of_nil in Hin.
Qed.

Lemma elem_of_exec_call (w : World) (c c' : Call) :
  c' ∈ (exec w (call c)).1 -> c' = c.
Proof.
  unfold call. simpl.
  destruct (handle w c); simpl; by intros ->%list_elem_of_singleton.
Qed.

(** Splits a hypothesis [x ∈ [a; b; ...]] into its cases. *)
Ltac elems H :=
  simpl in H;
  repeat (apply elem_of_cons in H as [H | H]; [try subst |]);
  try (apply elem_of_nil in H; destruct H).

(** ** The editor *)

(** C5. When the local environment info of the working directory stores a
    non-empty [defaultEditor], the editor resolution of [analyzeProject]
    returns it as it is after reading that file: [getEditor] is not
    entered, whatever [yes] and the editor parameter are.  No run of
    [analyzeProject] normalizes an editor or asks for one, and a returned
    context carries the stored editor. *)
Theorem stored_editor_wins (w : World) (context : Context)
    (info : LocalEnvInfo) (editor : string) :
  persistedLocalEnvInfo w = Some info ->
  lei_defaultEditor info = Some editor ->
  editor <> "" ->
  (forall context0,
     exec w (resolveEditor context0) =
       ([ProcessCwd; GetLocalEnvInfo (Some (cwd w)) false (Some emptyLocalEnvInfo)],
        Returned (Some editor)))
  /\ (forall s c, (s, c) ∈ (execStaged w (analyzeProject context)).1 ->
        isEditorResolution c = false)
  /\ (forall context',
        (execStaged w (analyzeProject context)).2 = Returned context' ->
        lei_defaultEditor <$> exe_localEnvInfo (exeInfo context')
          = Some (Some editor)).
Proof.
  intros Hinfo Heditor Hne.
  assert (forall context0,
     exec w (resolveEditor context0) =
       ([ProcessCwd; GetLocalEnvInfo (Some (cwd w)) false (Some emptyLocalEnvInfo)],
        Returned (Some editor))) as Hresolve.
  { intros context0. unfold resolveEditor.
    rewrite run_bind, exec_getDefaultEditor, Hinfo. simpl. rewrite Heditor. simpl.
    by destruct (String.eqb_spec editor ""). }
  split; [done | split].
  - intros s c Hin. apply analyzeProject_calls in Hin
      as [(_ & _ & Hc) | [(_ & [Hin | Hin]) | [(_ & Hin) | [(_ & Hin)
          | [(_ & [-> | [-> | ->]]) | (_ & Hin)]]]]]; try done.
    + rewrite exec_isNewProject in Hin. by elems Hin.
    + by apply never_run with (P := isEditorResolution) in Hin;
        [| apply getProjectName_never_editor].
    + by apply never_run with (P := isEditorResolution) in Hin;
        [| apply getEnvName_never_editor].
    + rewrite Hresolve in Hin. by elems Hin.
    + rewrite exec_isNewProject in Hin. by elems Hin.
  - intros context' Hrun.
    apply analyzeProject_returned in Hrun
      as (projectName & envName & defaultEditor & context4
          & _ & _ & Hed & _ & ->).
    rewrite Hresolve in Hed. by injection Hed as <-.
Qed.

Lemma stored_editor_wins_witness :
  exec shopWorld
       (resolveEditor (sampleContext (sampleParams None None (Some "code")) false))
    = ([ProcessCwd;
        GetLocalEnvInfo (Some "/home/me/shop") false (Some emptyLocalEnvInfo)],
       Returned (Some "vim"))
  /\ lei_defaultEditor <$> exe_localEnvInfo
       (exeInfo (returnedContext shopWorld
                   (sampleContext (sampleParams None None (Some "code")) false)))
     = Some (Some "vim").
Proof.
  pose proof (stored_editor_wins shopWorld
                (sampleContext (sampleParams None None (Some "code")) false)
                {| lei_projectPath := Some "/home/me/shop";
                   lei_defaultEditor := Some "vim";
                   lei_envName := Some "dev" |}
                "vim" eq_refl eq_refl ltac:(discriminate))
    as (Hresolve & _ & Hreturned).
  split.
  - apply Hresolve.
  - apply Hreturned. reflexivity.
Defined.

(** ** The source environment *)

(** C6. When the context says the environment is new and the project is
    not, the local environment info is read with [throwIfNotExist: false]
    and, if there is one, its [envName] becomes [sourceEnvName]; the read
    of an absent file returns and changes nothing.  In every other case no
    call is made and [sourceEnvName] is left as it was.  A context returned
    by [analyzeProject] has [sourceEnvName] settled that way from the
    flags it carries. *)
Theorem source_environment (w : World) (context : Context) :
  (forall context0,
     exec w (saveSourceEnvName context0) =
       if truthyb (exe_isNewEnv (exeInfo context0))
          && negb (truthyb (exe_isNewProject (exeInfo context0)))
       then ([GetLocalEnvInfo None false None],
             Returned (match persistedLocalEnvInfo w with
                       | Some info => set_sourceEnvName (lei_envName info) context0
                       | None => context0
                       end))
       else ([], Returned context0))
  /\ (forall context',
        (execStaged w (analyzeProject context)).2 = Returned context' ->
        exe_sourceEnvName (exeInfo context') =
          if truthyb (exe_isNewEnv (exeInfo context'))
             && negb (truthyb (exe_isNewProject (exeInfo context')))
          then match persistedLocalEnvInfo w with
               | Some info => lei_envName info
               | None => exe_sourceEnvName (exeInfo context)
               end
          else exe_sourceEnvName (exeInfo context)).
Proof.
  split; [intros; apply exec_saveSourceEnvName |].
  intros context' Hrun.
  apply analyzeProject_returned in Hrun
    as (projectName & envName & defaultEditor & context4
        & _ & _ & _ & Hsource & ->).
  pose proof (saveSourceEnvName_flags _ _ _ Hsource) as [HnewEnv _].
  cbn [exeInfo setExeInfo set_projectConfig set_isNewProject
       exe_sourceEnvName exe_isNewEnv exe_isNewProject].
  rewrite HnewEnv. rewrite exec_saveSourceEnvName in Hsource.
  cbn [exeInfo set_forcePush set_isNewEnv set_isNewProject
       exe_sourceEnvName exe_isNewEnv exe_isNewProject truthyb] in Hsource |- *.
  destruct (_ && _); simpl in Hsource; [| by injection Hsource as <-].
  destruct (persistedLocalEnvInfo w); by injection Hsource as <-.
Qed.

Lemma source_environment_witness :
  exe_sourceEnvName
    (exeInfo (returnedContext shopWorldNewEnv (sampleContext None false)))
    = Some "dev"
  /\ exe_sourceEnvName
       (exeInfo (returnedContext shopWorld (sampleContext None false)))
     = None.
Proof.
  split.
  - exact (proj2 (source_environment shopWorldNewEnv (sampleContext None false))
             (returnedContext shopWorldNewEnv (sampleContext None false)) eq_refl).
  - exact (proj2 (source_environment shopWorld (sampleContext None false))
             (returnedContext shopWorld (sampleContext None false)) eq_refl).
Defined.

(** ** The default environment name *)

Lemma offeredDefault_dev (w : World) :
  offeredDefault w = Some "dev"
  <-> persistedProjectConfig w = None \/ "dev" ∉ allEnvs w.
Proof.
  unfold offeredDefault. rewrite <- hasProject_false.
  destruct (hasProject w); simpl.
  - destruct (bool_decide_reflect ("dev" ∈ allEnvs w)); simpl; split;
      first [done | by auto | by intros [? | ?]].
  - split; auto.
Qed.

Lemma offeredDefault_cases (w : World) :
  offeredDefault w = Some "dev" \/ offeredDefault w = None.
Proof. unfold offeredDefault. destruct (_ || _); auto. Qed.

Lemma newEnvQuestion_asks (w : World) (context : Context) (q : InputQuestion) :
  PromptInput q ∈ (exec w (newEnvQuestion context)).1 ->
  q = envNameQuestion (offeredDefault w).
Proof.
  unfold newEnvQuestion. intros Hin.
  apply elem_of_run_bind in Hin as [Hin | (d & Hd & Hin)].
  - rewrite exec_getDefaultEnv in Hin. destruct (hasProject w); by elems Hin.
  - rewrite exec_getDefaultEnv in Hd. injection Hd as <-.
    apply (elem_of_exec_call w (PromptInput (envNameQuestion (offeredDefault w))))
      in Hin.
    by injection Hin.
Qed.

Lemma askEnvName_asks (w : World) (context : Context) (q : InputQuestion) :
  PromptInput q ∈ (exec w (askEnvName context)).1 ->
  q = envNameQuestion (offeredDefault w).
Proof.
  unfold askEnvName. intros Hin.
  apply elem_of_run_bind in Hin as [Hin | (newProject & _ & Hin)].
  { rewrite exec_isNewProject in Hin. by elems Hin. }
  destruct newProject; [by eapply newEnvQuestion_asks |].
  apply elem_of_run_bind in Hin as [Hin | (envs & _ & Hin)].
  { by elems Hin. }
  destruct (0 <? length envs)%nat; [| by eapply newEnvQuestion_asks].
  apply elem_of_run_bind in Hin as [Hin | (useExisting & _ & Hin)].
  { by elems Hin. }
  destruct useExisting; [| by eapply newEnvQuestion_asks].
  by apply (elem_of_exec_call w (PromptList (envQuestion envs))) in Hin.
Qed.

Lemma getEnvName_asks (w : World) (context : Context) (q : InputQuestion) :
  PromptInput q ∈ (exec w (getEnvName context)).1 ->
  q = envNameQuestion (offeredDefault w).
Proof.
  unfold getEnvName. intros Hin.
  destruct (amplifyParam ap_envName context) as [envName |].
  - destruct (isEnvNameValid envName); by elems Hin.
  - apply elem_of_run_bind in Hin as [Hin | (_ & _ & Hin)].
    + destruct (yes _); by elems Hin.
    + by eapply askEnvName_asks.
Qed.

(** ** The order of the stages *)

Lemma nondecreasing_cons (a b : nat) (l : list nat) :
  nondecreasing (a :: b :: l) = true <-> (a <= b)%nat /\ nondecreasing (b :: l) = true.
Proof.
  change (nondecreasing (a :: b :: l)) with ((a <=? b)%nat && nondecreasing (b :: l)).
  by rewrite andb_true_iff, Nat.leb_le.
Qed.

Lemma between_nil (lo hi : nat) : between lo hi [] <-> (lo <= hi)%nat.
Proof. unfold between. simpl. rewrite andb_true_r. apply Nat.leb_le. Qed.

Lemma between_cons (lo hi a : nat) (l : list nat) :
  between lo hi (a :: l) <-> (lo <= a)%nat /\ between a hi l.
Proof. unfold between. simpl app. apply nondecreasing_cons. Qed.

Lemma between_app (lo mid hi : nat) (l1 l2 : list nat) :
  between lo mid l1 -> between mid hi l2 -> between lo hi (l1 ++ l2).
Proof.
  revert lo. induction l1 as [| a l1 IH]; intros lo; simpl.
  - rewrite between_nil. intros Hle. destruct l2 as [| b l2].
    + rewrite !between_nil. lia.
    + rewrite !between_cons. intros [Hb Hl2]. split; [lia | done].
  - rewrite !between_cons. intros [Hle Hl1] Hl2. split; [done |]. by apply IH.
Qed.

Lemma between_weaken (lo mid hi : nat) (l : list nat) :
  between lo mid l -> (mid <= hi)%nat -> between lo hi l.
Proof.
  intros Hl Hle. rewrite <- (app_nil_r l).
  apply between_app with mid; [done |]. by apply between_nil.
Qed.

Lemma between_replicate (n : nat) (l : list nat) :
  Forall (fun x => x = n) l -> between n n l.
Proof.
  induction 1 as [| x l -> _ IH].
  - by apply between_nil.
  - apply between_cons. split; [lia | done].
Qed.

Lemma between_nondecreasing (lo hi : nat) (l : list nat) :
  between lo hi l -> nondecreasing l = true.
Proof.
  revert lo. induction l as [| a l IH]; intros lo; [done |].
  rewrite between_cons. intros [_ Hl]. destruct l as [| b l]; [done |].
  apply nondecreasing_cons. apply between_cons in Hl as Hl'.
  split; [tauto | by eapply IH].
Qed.

Lemma stages_within {A} (w : World) (rank : stage -> nat) (lo hi : nat)
    (s : stage) (p : io A) :
  (lo <= rank s)%nat -> (rank s <= hi)%nat ->
  between lo hi (ranks rank (execStaged w (within s p)).1).
Proof.
  intros Hlo Hhi. rewrite run_within. simpl.
  apply between_weaken with (rank s); [| done].
  apply (between_app lo (rank s) (rank s) []); [by apply between_nil |].
  apply between_replicate.
  induction (exec w p).1 as [| c t IH]; by constructor.
Qed.

Lemma stages_bind {A B} (w : World) (rank : stage -> nat) (lo mid hi : nat)
    (p : staged A) (f : A -> staged B) :
  between lo mid (ranks rank (execStaged w p).1) ->
  (mid <= hi)%nat ->
  (forall a, between mid hi (ranks rank (execStaged w (f a)).1)) ->
  between lo hi (ranks rank (execStaged w (bind p f)).1).
Proof.
  intros Hp Hle Hf. rewrite run_bind.
  destruct (execStaged w p).2 as [a | | |]; simpl;
    try by eapply between_weaken.
  unfold ranks in *. rewrite fmap_app. eapply between_app; [exact Hp | apply Hf].
Qed.

Lemma analyzeProject_stages (w : World) (context : Context) :
  between 0 5 (ranks sourceRank (execStaged w (analyzeProject context)).1).
Proof.
  unfold analyzeProject.
  apply (stages_bind w sourceRank 0 0 5); [| lia | intros _].
  { by apply (stages_within w sourceRank 0 0 Entry). }
  apply (stages_bind w sourceRank 0 0 5); [| lia | intros projectPath].
  { by apply (stages_within w sourceRank 0 0 Entry). }
  apply (stages_bind w sourceRank 0 1 5); [| lia | intros newProject].
  { apply (stages_within w sourceRank 0 1 ProjectIdentity); simpl; lia. }
  apply (stages_bind w sourceRank 1 1 5); [| lia | intros projectName].
  { by apply (stages_within w sourceRank 1 1 ProjectIdentity). }
  apply (stages_bind w sourceRank 1 2 5); [| lia | intros envName].
  { apply (stages_within w sourceRank 1 2 EnvironmentName); simpl; lia. }
  apply (stages_bind w sourceRank 2 3 5); [| lia | intros defaultEditor].
  { apply (stages_within w sourceRank 2 3 Editor); simpl; lia. }
  apply (stages_bind w sourceRank 3 4 5); [| lia | intros newEnv].
  { apply (stages_within w sourceRank 3 4 EnvironmentClass); simpl; lia. }
  apply (stages_bind w sourceRank 4 4 5); [| lia | intros context4].
  { by apply (stages_within w sourceRank 4 4 EnvironmentClass). }
  apply (stages_bind w sourceRank 4 5 5); [| lia | intros context5].
  { apply (stages_within w sourceRank 4 5 Assembler); simpl; lia. }
  simpl. by apply between_nil.
Qed.

Lemma getEnvName_ignores_flag (context : Context) (b : bool) :
  getEnvName (set_isNewProject b context) = getEnvName context.
Proof. reflexivity. Qed.

(** C8, as stated, fails: in an empty directory, with nothing given as
    parameter, the question for the environment name (call 11) comes
    before the editor is read and selected (calls 12 to 14). *)
Lemma stages_not_editor_first :
  let t := (execStaged emptyDirWorld (analyzeProject (sampleContext None false))).1 in
  followsOrder editorFirstRank t = false
  /\ t !! 11 = Some (EnvironmentName, PromptInput (envNameQuestion (Some "dev")))
  /\ t !! 14 = Some (Editor, EditorSelection None).
Proof. repeat split; reflexivity. Qed.

(** ** Headless runs without an environment name *)

(** With [yes] set, [getProjectName] returns a name and asks nothing. *)
Lemma getProjectName_headless (w : World) (context : Context) :
  yes (inputParams (exeInfo context)) = true ->
  exe_isNewProject (exeInfo context) = Some (negb (hasProject w)) ->
  (exists projectName, (exec w (getProjectName context)).2 = Returned projectName)
  /\ forall c, c ∈ (exec w (getProjectName context)).1 -> isPrompt c = false.
Proof.
  intros Hyes Hflag. unfold getProjectName. simpl. rewrite Hflag, Hyes. simpl.
  destruct (hasProject w) eqn:Hhas; simpl.
  - apply hasProject_true in Hhas as [pc Hpc].
    unfold persistedProjectConfig in Hpc. rewrite Hpc. simpl.
    split; [eauto |]. intros c Hin. by elems Hin.
  - destruct (amplifyParam ap_projectName context); simpl;
      (split; [eauto |]); intros c Hin; by elems Hin.
Qed.

(** With [yes] set, the editor resolution asks nothing. *)
Lemma resolveEditor_headless (w : World) (context : Context) (c : Call) :
  yes (inputParams (exeInfo context)) = true ->
  c ∈ (exec w (resolveEditor context)).1 -> isPrompt c = false.
Proof.
  intros Hyes. unfold resolveEditor. rewrite run_bind, exec_getDefaultEditor.
  simpl. destruct (negb _); simpl.
  - unfold getEditor. rewrite Hyes.
    destruct (amplifyParam ap_defaultEditor context); simpl; intros Hin; by elems Hin.
  - intros Hin. by elems Hin.
Qed.

(** C2. With [yes] set and no environment name through the parameter
    guard, [getEnvName] prints "Environment name missing", emits the usage
    error and ends the process with status 1.  A run of [analyzeProject]
    ends there, with status 1, and no question is asked in it. *)
Theorem headless_missing_environment_name (w : World) (context : Context) :
  yes (inputParams (exeInfo context)) = true ->
  amplifyParam ap_envName context = None ->
  exec w (getEnvName context) =
    ([PrintError "Environment name missing";
      EmitError (InvalidEnvironmentNameError INVALID_ENV_NAME_MSG);
      ExitOnNextTick 1], Exited 1)
  /\ (execStaged w (analyzeProject context)).2 = Exited 1
  /\ (forall s c, (s, c) ∈ (execStaged w (analyzeProject context)).1 ->
        isPrompt c = false).
Proof.
  intros Hyes Hparam.
  pose proof (getEnvName_missing_exits w context Hyes Hparam) as Hexit.
  pose proof (getProjectName_headless w
                (set_isNewProject (negb (hasProject w)) context) Hyes eq_refl)
    as [[projectName HprojectName] Hquiet].
  split; [done | split].
  - unfold analyzeProject.
    rewrite (outcome_bind_returned _ _ _ tt)
      by (rewrite run_within; by destruct (_ || _)).
    rewrite (outcome_bind_returned _ _ _ (cwd w)) by done.
    rewrite (outcome_bind_returned _ _ _ (negb (hasProject w)))
      by (by rewrite run_within, exec_isNewProject).
    rewrite (outcome_bind_returned _ _ _ projectName)
      by (by rewrite run_within).
    apply outcome_bind_exited. rewrite run_within.
    rewrite getEnvName_ignores_flag, Hexit. done.
  - intros s c Hin. apply analyzeProject_calls in Hin
      as [(_ & Hc & _) | [(_ & [Hin | Hin]) | [(_ & Hin) | [(_ & Hin)
          | [(_ & [-> | [-> | ->]]) | (_ & Hin)]]]]]; try done.
    + rewrite exec_isNewProject in Hin. by elems Hin.
    + by apply Hquiet.
    + rewrite getEnvName_ignores_flag, Hexit in Hin. by elems Hin.
    + by eapply resolveEditor_headless.
    + rewrite exec_isNewProject in Hin. by elems Hin.
Qed.

Lemma headless_missing_environment_name_witness :
  (exec shopWorld (getEnvName (sampleContext None true))).2 = Exited 1
  /\ (execStaged shopWorld (analyzeProject (sampleContext None true))).2 = Exited 1
  /\ (execStaged emptyDirWorld
        (analyzeProject (sampleContext (sampleParams (Some "shop1") None None) true))).2
     = Exited 1.
Proof.
  split; [| split].
  - exact (f_equal snd
      (proj1 (headless_missing_environment_name shopWorld (sampleContext None true)
                eq_refl eq_refl))).
  - exact (proj1 (proj2
      (headless_missing_environment_name shopWorld (sampleContext None true)
         eq_refl eq_refl))).
  - exact (proj1 (proj2
      (headless_missing_environment_name emptyDirWorld
         (sampleContext (sampleParams (Some "shop1") None None) true)
         eq_refl eq_refl))).
Defined.

(** ** The project name parameter *)







(** ** The headless fast path *)

(** C10. When the working directory has a project config file and ["dev"]
    is a known environment name, [analyzeProjectHeadless] returns a context
    whose [localEnvInfo.envName] is undefined and whose project name is the
    base name of the working directory as it is.  Nothing is asked, no
    error is printed or emitted, the process is not ended, and no name is
    normalized; the only output is the warning about a missing frontend. *)
Theorem analyzeProjectHeadless_existing_dev (w : World) (context : Context) :
  is_Some (persistedProjectConfig w) ->
  "dev" ∈ allEnvs w ->
  exists context',
    exec w (analyzeProjectHeadless context) =
      ([ProcessCwd; ProcessCwd; ProjectConfigFileExists (cwd w); GetAllEnvs;
        ProcessCwd; ProjectConfigFileExists (cwd w)]
       ++ (if truthy (opt_frontend (options context)) then []
           else [PrintWarning "No frontend specified. Defaulting to android."]),
       Returned context')%list
    /\ exe_localEnvInfo (exeInfo context') =
         Some {| lei_projectPath := Some (cwd w);
                 lei_defaultEditor := None;
                 lei_envName := None |}
    /\ pc_projectName <$> exe_projectConfig (exeInfo context')
       = Some (basename (cwd w))
    /\ forall c, c ∈ (exec w (analyzeProjectHeadless context)).1 ->
         isFailure c = false /\ isPrompt c = false /\ isNormalization c = false.
Proof.
  intros Hproject Hdev.
  assert (hasProject w = true) as Hhas by (by apply bool_decide_eq_true).
  assert (offeredDefault w = None) as Hoffered.
  { unfold offeredDefault. rewrite Hhas. simpl.
    by rewrite (bool_decide_eq_true_2 _ Hdev). }
  assert (forall frontend : option string,
    exec w (analyzeProjectHeadless context) =
      ([ProcessCwd; ProcessCwd; ProjectConfigFileExists (cwd w); GetAllEnvs;
        ProcessCwd; ProjectConfigFileExists (cwd w)]
       ++ (if truthy (opt_frontend (options context)) then []
           else [PrintWarning "No frontend specified. Defaulting to android."]),
       Returned
         (set_projectConfig
            {| pc_projectName := basename (cwd w);
               pc_version := CURRENT_PROJECT_CONFIG_VERSION;
               pc_frontend :=
                 if truthy (opt_frontend (options context))
                 then opt_frontend (options context) else Some "android" |}
            (setExeInfo
               (set_projectConfig (newProjectConfig (basename (cwd w)))
                  (set_isNewProject false context))
               (cwd w) None None)))%list) as Hrun.
  { intros _. unfold analyzeProjectHeadless.
    rewrite (run_bind _ (call ProcessCwd)). cbn [run call fst snd handle app].
    rewrite run_bind, exec_getDefaultEnv, Hhas, Hoffered. cbn [fst snd app].
    rewrite run_bind, exec_setProjectConfig, Hhas. cbn [fst snd app negb].
    cbn [options setExeInfo set_projectConfig set_isNewProject exeInfo].
    by destruct (truthy (opt_frontend (options context))). }
  eexists. split; [apply (Hrun None) |].
  split; [done | split; [done |]].
  rewrite (Hrun None). simpl. intros c Hin.
  repeat (apply elem_of_cons in Hin as [-> | Hin]; [done |]).
  destruct (truthy (opt_frontend (options context))); by elems Hin.
Qed.

Lemma analyzeProjectHeadless_existing_dev_witness :
  exists context',
    (exec shopWorld (analyzeProjectHeadless (sampleContext None true))).2
      = Returned context'
    /\ exe_localEnvInfo (exeInfo context') =
         Some {| lei_projectPath := Some "/home/me/shop";
                 lei_defaultEditor := None;
                 lei_envName := None |}
    /\ pc_projectName <$> exe_projectConfig (exeInfo context') = Some "shop".
Proof.
  destruct (analyzeProjectHeadless_existing_dev shopWorld (sampleContext None true))
    as (context' & Hrun & Hlocal & Hname & _).
  - vm_compute. eauto.
  - vm_compute. apply list_elem_of_here.
  - exists context'. split; [by rewrite Hrun |]. split; [exact Hlocal | exact Hname].
Defined.

(** ** The scenarios of the specification *)

(** An empty directory, [{amplify: {projectName: "shop1", envName: "dev"}}]
    and [yes]: a new project [shop1] on the new environment [dev]. *)
Example scenario_new_project_headless :
  let context' :=
    returnedContext emptyDirWorld
      (sampleContext (sampleParams (Some "shop1") (Some "dev") None) true) in
  exe_isNewProject (exeInfo context') = Some true
  /\ pc_projectName <$> exe_projectConfig (exeInfo context') = Some "shop1"
  /\ exe_isNewEnv (exeInfo context') = Some true
  /\ lei_envName <$> exe_localEnvInfo (exeInfo context') = Some (Some "dev").
Proof. repeat split; reflexivity. Qed.

(** The same directory and [{amplify: {envName: "DEV"}}]: the run ends with
    status 1 on the message for an invalid name. *)
Example scenario_invalid_environment_name :
  execStaged emptyDirWorld
    (analyzeProject (sampleContext (sampleParams None (Some "DEV") None) true))
  = ([(Entry, PrintWarning
         "Note: It is recommended to run this command from the root of your app directory");
      (Entry, ProcessCwd);
      (ProjectIdentity, ProcessCwd);
      (ProjectIdentity, ProjectConfigFileExists "/home/me/shop");
      (ProjectIdentity, ProcessCwd);
      (ProjectIdentity, NormalizeProjectName "shop");
      (EnvironmentName, PrintError INVALID_ENV_NAME_MSG);
      (EnvironmentName, EmitError (InvalidEnvironmentNameError INVALID_ENV_NAME_MSG));
      (EnvironmentName, ExitOnNextTick 1)],
     Exited 1).
Proof. reflexivity. Qed.

(** An existing project on [dev], where the user keeps the existing
    environment: it is not new and no source environment is recorded. *)
Example scenario_existing_environment :
  let context' := returnedContext shopWorld (sampleContext None false) in
  exe_isNewProject (exeInfo context') = Some false
  /\ exe_isNewEnv (exeInfo context') = Some false
  /\ lei_envName <$> exe_localEnvInfo (exeInfo context') = Some (Some "dev")
  /\ exe_sourceEnvName (exeInfo context') = None.
Proof. repeat split; reflexivity. Qed.

(** The same project, where the user declines and types [DEV], which is
    refused, then [stage]: a new environment whose source is [dev]. *)
Example scenario_new_environment :
  let context' := returnedContext shopWorldNewEnv (sampleContext None false) in
  exe_isNewEnv (exeInfo context') = Some true
  /\ lei_envName <$> exe_localEnvInfo (exeInfo context') = Some (Some "stage")
  /\ exe_sourceEnvName (exeInfo context') = Some "dev"
  /\ lei_defaultEditor <$> exe_localEnvInfo (exeInfo context') = Some (Some "vim").
Proof. repeat split; reflexivity. Qed.

(** ** How a run can end *)

Section Ends.
Context {E : Type} {R : E -> Type}.
Variable h : forall e : E, reply (R e).

Lemma outcome_bind {A B} (p : prog E R A) (f : A -> prog E R B) :
  (run h (bind p f)).2 = thenOutcome (run h p).2 (fun a => (run h (f a)).2).
Proof. rewrite run_bind. by destruct (run h p).2. Qed.

(** A run that ends the process does so in its last call. *)
Lemma exited_call {A} (p : prog E R A) (code : Z) :
  (run h p).2 = Exited code -> exists e, e ∈ (run h p).1 /\ h e = Exits code.
Proof.
  induction p as [a | e k IH]; simpl; [done |].
  destruct (h e) as [x | code' | err |] eqn:He; simpl; try done.
  - intros Hk. destruct (IH x Hk) as (e' & Hin & He').
    exists e'. split; [by apply elem_of_cons; right | done].
  - intros [= ->]. exists e. split; [apply list_elem_of_here | done].
Qed.

Lemma threw_call {A} (p : prog E R A) (err : string) :
  (run h p).2 = Threw err -> exists e, e ∈ (run h p).1 /\ h e = Throws err.
Proof.
  induction p as [a | e k IH]; simpl; [done |].
  destruct (h e) as [x | code' | err' |] eqn:He; simpl; try done.
  - intros Hk. destruct (IH x Hk) as (e' & Hin & He').
    exists e'. split; [by apply elem_of_cons; right | done].
  - intros [= ->]. exists e. split; [apply list_elem_of_here | done].
Qed.

Lemma blocked_call {A} (p : prog E R A) :
  (run h p).2 = Blocked -> exists e, e ∈ (run h p).1 /\ h e = Waits.
Proof.
  induction p as [a | e k IH]; simpl; [done |].
  destruct (h e) as [x | code' | err' |] eqn:He; simpl; try done.
  - intros Hk. destruct (IH x Hk) as (e' & Hin & He').
    exists e'. split; [by apply elem_of_cons; right | done].
  - intros _. exists e. split; [apply list_elem_of_here | done].
Qed.
End Ends.

Lemma readOr_Exits {X} (file : option X) (b : bool) (d : option X) (code : Z) :
  readOr file b d <> Exits code.
Proof. unfold readOr. destruct file; [done |]. by destruct b. Qed.

Lemma readOr_Waits {X} (file : option X) (b : bool) (d : option X) :
  readOr file b d <> Waits.
Proof. unfold readOr. destruct file; [done |]. by destruct b. Qed.

Lemma readOr_Throws {X} (file : option X) (b : bool) (d : option X) (e : string) :
  readOr file b d = Throws e -> b = true.
Proof. unfold readOr. destruct file; [done |]. by destruct b. Qed.

(** Only [exitOnNextTick] ends the process. *)
Lemma handle_Exits (w : World) (c : Call) (code : Z) :
  handle w c = Exits code -> c = ExitOnNextTick code.
Proof.
  destruct c; simpl; try done.
  - by destruct (projectConfigFile _).
  - intros H. by apply readOr_Exits in H.
  - intros H. by apply readOr_Exits in H.
  - by intros [= ->].
  - by destruct (firstAccepted _ _).
  - by destruct (chosen _ _).
Qed.

Lemma handle_Throws (w : World) (c : Call) (e : string) :
  handle w c = Throws e -> canThrow c = true.
Proof.
  destruct c; simpl; try done.
  - intros H. by apply readOr_Throws in H.
  - intros H. by apply readOr_Throws in H.
  - by destruct (firstAccepted _ _).
  - by destruct (chosen _ _).
Qed.

Lemma handle_Waits (w : World) (c : Call) :
  handle w c = Waits -> canWait c = true.
Proof.
  destruct c; simpl; try done.
  - by destruct (projectConfigFile _).
  - intros H. by apply readOr_Waits in H.
  - intros H. by apply readOr_Waits in H.
Qed.

Lemma never_Exited {A} (w : World) (p : io A) (code : Z) :
  never isFailure p -> (exec w p).2 <> Exited code.
Proof.
  intros Hnever Hexit. apply exited_call in Hexit as (c & Hin & Hc).
  apply handle_Exits in Hc as ->.
  by apply never_run with (P := isFailure) in Hin.
Qed.

Lemma never_Threw {A} (w : World) (p : io A) (e : string) :
  never canThrow p -> (exec w p).2 <> Threw e.
Proof.
  intros Hnever Hthrew. apply threw_call in Hthrew as (c & Hin & Hc).
  apply handle_Throws in Hc.
  apply never_run with (P := canThrow) in Hin; congruence.
Qed.

Lemma askEnvName_never_failure (context : Context) :
  never isFailure (askEnvName context).
Proof.
  unfold askEnvName, newEnvQuestion, getDefaultEnv.
  solve_never; by apply isNewProject_never.
Qed.

Lemma getEnvName_never_throws (context : Context) :
  never canThrow (getEnvName context).
Proof.
  unfold getEnvName, askEnvName, newEnvQuestion, getDefaultEnv.
  solve_never; by apply isNewProject_never.
Qed.

Lemma getEnvName_invalid_exits (w : World) (context : Context) (envName : string) :
  amplifyParam ap_envName context = Some envName ->
  isEnvNameValid envName = false ->
  exec w (getEnvName context) =
    ([PrintError INVALID_ENV_NAME_MSG;
      EmitError (InvalidEnvironmentNameError INVALID_ENV_NAME_MSG);
      ExitOnNextTick 1], Exited 1).
Proof.
  intros Hparam Hvalid. unfold getEnvName. by rewrite Hparam, Hvalid.
Qed.

Lemma getEnvName_fatal (w : World) (context : Context) :
  envNameFatal context = true ->
  exists message,
    exec w (getEnvName context) =
      ([PrintError message;
        EmitError (InvalidEnvironmentNameError INVALID_ENV_NAME_MSG);
        ExitOnNextTick 1], Exited 1).
Proof.
  unfold envNameFatal.
  destruct (amplifyParam ap_envName context) as [envName |] eqn:Hparam.
  - intros Hvalid%negb_true_iff. eexists.
    by apply getEnvName_invalid_exits with envName.
  - intros Hyes. eexists. by apply getEnvName_missing_exits.
Qed.

Lemma getEnvName_exited (w : World) (context : Context) (code : Z) :
  (exec w (getEnvName context)).2 = Exited code
  <-> code = 1%Z /\ envNameFatal context = true.
Proof.
  split.
  - destruct (envNameFatal context) eqn:Hfatal.
    + destruct (getEnvName_fatal w context Hfatal) as [message ->].
      simpl. by intros [= <-].
    + intros Hexit. exfalso. revert Hexit.
      unfold envNameFatal in Hfatal. unfold getEnvName.
      destruct (amplifyParam ap_envName context) as [envName |].
      * apply negb_false_iff in Hfatal. by rewrite Hfatal.
      * rewrite Hfatal. apply never_Exited.
        apply never_bind; [apply never_Ret |]. intros _.
        apply askEnvName_never_failure.
  - intros [-> Hfatal].
    by destruct (getEnvName_fatal w context Hfatal) as [message ->].
Qed.

Lemma getEnvName_quiet (w : World) (context : Context) (c : Call) :
  envNameFatal context = false ->
  c ∈ (exec w (getEnvName context)).1 -> isFailure c = false.
Proof.
  intros Hfatal. unfold envNameFatal in Hfatal. unfold getEnvName.
  destruct (amplifyParam ap_envName context) as [envName |].
  - apply negb_false_iff in Hfatal. rewrite Hfatal. simpl.
    intros Hin. by apply elem_of_nil in Hin.
  - rewrite Hfatal. apply never_run.
    apply never_bind; [apply never_Ret |]. intros _.
    apply askEnvName_never_failure.
Qed.

(** X1. [getEnvName] ends the process exactly when a name got through the
    parameter guard and does not match, or when [yes] is set and no name
    got through; the status is always 1.  In every other run no error is
    printed, no usage error is emitted, and the function never throws. *)
Theorem getEnvName_exits_iff (w : World) (context : Context) :
  (forall code,
     (exec w (getEnvName context)).2 = Exited code
     <-> code = 1%Z /\ envNameFatal context = true)
  /\ (envNameFatal context = false ->
      forall c, c ∈ (exec w (getEnvName context)).1 -> isFailure c = false)
  /\ (forall e, (exec w (getEnvName context)).2 <> Threw e).
Proof.
  split; [| split].
  - intros code. apply getEnvName_exited.
  - intros Hfatal c. by apply getEnvName_quiet.
  - intros e. apply never_Threw, getEnvName_never_throws.
Qed.

Lemma getEnvName_exits_iff_witness :
  (exec emptyDirWorld
     (getEnvName (sampleContext (sampleParams None (Some "Dev1") None) false))).2
    = Exited 1
  /\ forall c,
       c ∈ (exec shopWorld (getEnvName (sampleContext None false))).1 ->
       isFailure c = false.
Proof.
  split.
  - apply (proj1 (getEnvName_exits_iff emptyDirWorld
             (sampleContext (sampleParams None (Some "Dev1") None) false)) 1%Z).
    split; reflexivity.
  - apply (proj1 (proj2 (getEnvName_exits_iff shopWorld (sampleContext None false)))).
    reflexivity.
Defined.

(** ** The outcome of [analyzeProject] *)

Lemma exec_ask (w : World) (c : Call) :
  exec w (call c) =
    ([c], match handle w c with
          | Value x => Returned x
          | Exits code => Exited code
          | Throws e => Threw e
          | Waits => Blocked
          end).
Proof. unfold call. simpl. by destruct (handle w c). Qed.

(** With the flag of [isNewProject], [getProjectName] returns a name, or
    waits at its question. *)
Lemma getProjectName_outcome (w : World) (context : Context) :
  exe_isNewProject (exeInfo context) = Some (negb (hasProject w)) ->
  (exists projectName, (exec w (getProjectName context)).2 = Returned projectName)
  \/ ((exec w (getProjectName context)).2 = Blocked
      /\ yes (inputParams (exeInfo context)) = false).
Proof.
  intros Hflag. unfold getProjectName. simpl. rewrite Hflag. simpl.
  destruct (hasProject w) eqn:Hhas; simpl.
  - apply hasProject_true in Hhas as [pc Hpc].
    unfold persistedProjectConfig in Hpc. rewrite Hpc. simpl. eauto.
  - destruct (amplifyParam ap_projectName context); simpl; [eauto |].
    destruct (yes (inputParams (exeInfo context))); simpl; [eauto |].
    destruct (firstAccepted _ _); simpl; eauto.
Qed.

(** The editor resolution always returns: the stored editor when there is
    a non-empty one, else what [getEditor] settles on. *)
Lemma exec_resolveEditor (w : World) (context : Context) :
  (exec w (resolveEditor context)).2 =
    Returned
      (let stored :=
         lei_defaultEditor (default emptyLocalEnvInfo (persistedLocalEnvInfo w)) in
       if truthy stored then stored else freshEditor w context).
Proof.
  unfold resolveEditor, freshEditor.
  rewrite outcome_bind, exec_getDefaultEditor. simpl.
  destruct (truthy _); simpl; [done |].
  unfold getEditor.
  destruct (amplifyParam ap_defaultEditor context); simpl; [done |].
  by destruct (yes (inputParams (exeInfo context))).
Qed.

(** The context [analyzeProject] returns once every stage has returned. *)
Lemma analyzeProject_outcome (w : World) (context : Context) :
  let context1 := set_isNewProject (negb (hasProject w)) context in
  (execStaged w (analyzeProject context)).2 =
    thenOutcome (exec w (getProjectName context1)).2 (fun projectName =>
    thenOutcome (exec w (getEnvName context1)).2 (fun envName =>
    thenOutcome (exec w (resolveEditor context1)).2 (fun defaultEditor =>
    thenOutcome
      (exec w (saveSourceEnvName
                 (set_forcePush (opt_forcePush (options context))
                    (set_isNewEnv (isNewEnvIn w envName) context1)))).2
      (fun context4 =>
    Returned
      (setExeInfo
         (set_projectConfig (newProjectConfig projectName)
            (set_isNewProject (negb (hasProject w)) context4))
         (cwd w) defaultEditor (Some envName)))))).
Proof.
  intros context1. subst context1. unfold analyzeProject.
  rewrite (outcome_bind_returned _ _ _ tt)
    by (rewrite run_within; by destruct (_ || _)).
  rewrite (outcome_bind_returned _ _ _ (cwd w)) by done.
  rewrite (outcome_bind_returned _ _ _ (negb (hasProject w)))
    by (by rewrite run_within, exec_isNewProject).
  rewrite outcome_bind, run_within. cbn [snd].
  destruct (exec w (getProjectName _)).2 as [projectName | | |];
    cbn [thenOutcome]; try done.
  rewrite outcome_bind, run_within. cbn [snd].
  destruct (exec w (getEnvName _)).2 as [envName | | |];
    cbn [thenOutcome]; try done.
  rewrite outcome_bind, run_within. cbn [snd].
  destruct (exec w (resolveEditor _)).2 as [defaultEditor | | |];
    cbn [thenOutcome]; try done.
  rewrite outcome_bind, run_within, exec_isNewEnv. cbn [snd thenOutcome].
  rewrite outcome_bind, run_within. cbn [snd].
  destruct (exec w (saveSourceEnvName _)).2 as [context4 | | |];
    cbn [thenOutcome]; try done.
Qed.

(** X2. A run of [analyzeProject] ends the process only with status 1 and
    only for the environment name: a name through the parameter guard that
    does not match, or [yes] without a name.  With such parameters no
    context is ever returned: the run ends with status 1, unless it is
    still waiting at the question for the project name. *)
Theorem analyzeProject_exits (w : World) (context : Context) :
  (forall code,
     (execStaged w (analyzeProject context)).2 = Exited code ->
     code = 1%Z /\ envNameFatal context = true)
  /\ (envNameFatal context = true ->
      (execStaged w (analyzeProject context)).2 = Exited 1
      \/ ((execStaged w (analyzeProject context)).2 = Blocked
          /\ yes (inputParams (exeInfo context)) = false)).
Proof.
  pose proof (getProjectName_outcome w
                (set_isNewProject (negb (hasProject w)) context) eq_refl)
    as HprojectName.
  rewrite analyzeProject_outcome. split.
  - intros code.
    destruct HprojectName as [[projectName ->] | [-> _]]; cbn [thenOutcome]; [| done].
    destruct (exec w (getEnvName _)).2 as [envName | code' | |] eqn:HenvName;
      cbn [thenOutcome]; try done.
    + rewrite exec_resolveEditor. cbn [thenOutcome]. rewrite exec_saveSourceEnvName.
      by destruct (_ && _).
    + intros [= ->]. by apply getEnvName_exited in HenvName.
  - intros Hfatal.
    destruct HprojectName as [[projectName ->] | [-> Hyes]]; cbn [thenOutcome]; [| auto].
    left.
    assert ((exec w (getEnvName (set_isNewProject (negb (hasProject w)) context))).2
            = Exited 1) as -> by (by apply getEnvName_exited).
    done.
Qed.

Lemma analyzeProject_exits_witness :
  (execStaged shopWorld
     (analyzeProject (sampleContext (sampleParams None (Some "Dev1") None) false))).2
  = Exited 1.
Proof.
  destruct (proj2 (analyzeProject_exits shopWorld
                     (sampleContext (sampleParams None (Some "Dev1") None) false))
              eq_refl) as [Hexit | [Hblocked _]].
  - exact Hexit.
  - vm_compute in Hblocked. discriminate Hblocked.
Defined.

(** ** The names that are resolved *)

(** An answer to an input question is one its validator accepts. *)
Lemma firstAccepted_accepted (q : InputQuestion) (lines : list string) (x : string) :
  firstAccepted q lines = Some x -> validate (iq_validate q) x = Accepted.
Proof.
  induction lines as [| l rest IH]; simpl; [done |].
  set (input := if String.eqb l "" then default "" (iq_default q) else l).
  destruct (validate (iq_validate q) input) eqn:Hvalidate; simpl; [| done].
  by intros [= <-].
Qed.

Lemma PromptInput_returned (w : World) (q : InputQuestion) (x : string) :
  (exec w (call (PromptInput q))).2 = Returned x ->
  validate (iq_validate q) x = Accepted.
Proof.
  unfold call. simpl.
  destruct (firstAccepted q (typed w (iq_name q))) as [y |] eqn:Hy; simpl; [| done].
  intros [= <-]. by eapply firstAccepted_accepted.
Qed.

Lemma PromptList_returned (w : World) (q : ListQuestion) (x : string) :
  (exec w (call (PromptList q))).2 = Returned x -> x ∈ lq_choices q.
Proof.
  unfold call. simpl. unfold chosen.
  destruct (lq_choices q !! _) as [y |] eqn:Hy; simpl; [| done].
  intros [= <-]. by eapply list_elem_of_lookup_2.
Qed.

Lemma newEnvQuestion_returned (w : World) (context : Context) (envName : string) :
  (exec w (newEnvQuestion context)).2 = Returned envName ->
  isEnvNameValid envName = true.
Proof.
  unfold newEnvQuestion. intros Hrun.
  apply returned_bind in Hrun as (d & _ & Hrun).
  apply (PromptInput_returned w (envNameQuestion d)) in Hrun.
  simpl in Hrun. by destruct (isEnvNameValid envName).
Qed.

Lemma askEnvName_returned (w : World) (context : Context) (envName : string) :
  (exec w (askEnvName context)).2 = Returned envName ->
  isEnvNameValid envName = true
  \/ (hasProject w = true /\ confirms w = true /\ envName ∈ allEnvs w).
Proof.
  unfold askEnvName. intros Hrun.
  apply returned_bind in Hrun as (newProject & HnewProject & Hrun).
  rewrite exec_isNewProject in HnewProject. injection HnewProject as <-.
  destruct (hasProject w); cbn [negb] in Hrun;
    [| left; by eapply newEnvQuestion_returned].
  apply returned_bind in Hrun as (envs & Henvs & Hrun).
  injection Henvs as <-.
  destruct (0 <? length (allEnvs w))%nat;
    [| left; by eapply newEnvQuestion_returned].
  apply returned_bind in Hrun as (useExisting & Hconfirm & Hrun).
  injection Hconfirm as <-.
  destruct (confirms w); [| left; by eapply newEnvQuestion_returned].
  right. apply (PromptList_returned w (envQuestion (allEnvs w))) in Hrun. done.
Qed.

Lemma getEnvName_returned (w : World) (context : Context) (envName : string) :
  (exec w (getEnvName context)).2 = Returned envName ->
  (amplifyParam ap_envName context = Some envName /\ isEnvNameValid envName = true)
  \/ (amplifyParam ap_envName context = None
      /\ yes (inputParams (exeInfo context)) = false
      /\ (isEnvNameValid envName = true
          \/ (hasProject w = true /\ confirms w = true /\ envName ∈ allEnvs w))).
Proof.
  unfold getEnvName.
  destruct (amplifyParam ap_envName context) as [name |].
  - destruct (isEnvNameValid name) eqn:Hvalid; simpl; [| done].
    intros [= <-]. auto.
  - destruct (yes (inputParams (exeInfo context))); intros Hrun;
      [simpl in Hrun; discriminate Hrun |].
    apply returned_bind in Hrun as (_ & _ & Hrun).
    apply askEnvName_returned in Hrun. auto.
Qed.

(** X4. The environment name [getEnvName] returns matches
    [^[a-z]{2,10}$], whether it comes from the parameter or from the
    question for a new name, unless the user picked it from the list of
    existing environments: a name picked there is one of the known names
    and is returned unchecked.  The context [analyzeProject] returns
    carries such a name. *)
Theorem resolved_environment_name (w : World) (context : Context) :
  (forall envName,
     (exec w (getEnvName context)).2 = Returned envName ->
     isEnvNameValid envName = true
     \/ (hasProject w = true /\ confirms w = true /\ envName ∈ allEnvs w))
  /\ (forall context',
        (execStaged w (analyzeProject context)).2 = Returned context' ->
        exists envName,
          lei_envName <$> exe_localEnvInfo (exeInfo context') = Some (Some envName)
          /\ (isEnvNameValid envName = true \/ envName ∈ allEnvs w)).
Proof.
  split.
  - intros envName Hrun.
    apply getEnvName_returned in Hrun as [[_ Hvalid] | (_ & _ & Hname)]; auto.
  - intros context' Hrun.
    apply analyzeProject_returned in Hrun
      as (projectName & envName & defaultEditor & context4
          & _ & HenvName & _ & _ & ->).
    exists envName. split; [done |].
    apply getEnvName_returned in HenvName
      as [[_ Hvalid] | (_ & _ & [Hvalid | (_ & _ & Hin)])]; auto.
Qed.

Lemma resolved_environment_name_witness :
  (isEnvNameValid "stage" = true
   \/ (hasProject shopWorldNewEnv = true /\ confirms shopWorldNewEnv = true
       /\ "stage" ∈ allEnvs shopWorldNewEnv))
  /\ (isEnvNameValid "Prod_1" = true
      \/ (hasProject legacyWorld = true /\ confirms legacyWorld = true
          /\ "Prod_1" ∈ allEnvs legacyWorld)).
Proof.
  split.
  - exact (proj1 (resolved_environment_name shopWorldNewEnv (sampleContext None false))
             "stage" eq_refl).
  - exact (proj1 (resolved_environment_name legacyWorld (sampleContext None false))
             "Prod_1" eq_refl).
Defined.

(** A name picked from the list need not match: [Prod_1] becomes the
    environment name of the returned context. *)
Example existing_name_unchecked :
  lei_envName <$> exe_localEnvInfo
    (exeInfo (returnedContext legacyWorld (sampleContext None false)))
    = Some (Some "Prod_1")
  /\ isEnvNameValid "Prod_1" = false.
Proof. split; reflexivity. Qed.

(** ** Runs with [yes] set *)

Lemma getProjectName_headless_result (w : World) (context : Context) :
  yes (inputParams (exeInfo context)) = true ->
  exe_isNewProject (exeInfo context) = Some (negb (hasProject w)) ->
  (exec w (getProjectName context)).2 = Returned (headlessProjectName w context).
Proof.
  intros Hyes Hflag. unfold getProjectName, headlessProjectName. simpl.
  rewrite Hflag, Hyes. simpl.
  destruct (hasProject w) eqn:Hhas; simpl.
  - apply hasProject_true in Hhas as [pc Hpc]. rewrite Hpc.
    unfold persistedProjectConfig in Hpc. by rewrite Hpc.
  - apply hasProject_false in Hhas. rewrite Hhas.
    by destruct (amplifyParam ap_projectName context).
Qed.

Lemma getEnvName_headless_quiet (w : World) (context : Context) (c : Call) :
  yes (inputParams (exeInfo context)) = true ->
  c ∈ (exec w (getEnvName context)).1 -> isPrompt c = false.
Proof.
  intros Hyes. destruct (envNameFatal context) eqn:Hfatal.
  - destruct (getEnvName_fatal w context Hfatal) as [message ->].
    intros Hin. by elems Hin.
  - unfold envNameFatal in Hfatal. unfold getEnvName.
    destruct (amplifyParam ap_envName context) as [envName |]; [| congruence].
    apply negb_false_iff in Hfatal. rewrite Hfatal. simpl.
    intros Hin. by apply elem_of_nil in Hin.
Qed.

(** X5. With [yes] set, no run of [analyzeProject] asks a question, and
    none is left waiting.  When moreover a matching environment name got
    through the parameter guard, the run returns a context with that
    environment name and with the project name stored in the project
    config or, for a new project, the normalized parameter or folder
    name. *)
Theorem headless_run (w : World) (context : Context) :
  yes (inputParams (exeInfo context)) = true ->
  (forall s c, (s, c) ∈ (execStaged w (analyzeProject context)).1 ->
     isPrompt c = false)
  /\ (execStaged w (analyzeProject context)).2 <> Blocked
  /\ (forall envName,
        amplifyParam ap_envName context = Some envName ->
        isEnvNameValid envName = true ->
        exists context',
          (execStaged w (analyzeProject context)).2 = Returned context'
          /\ lei_envName <$> exe_localEnvInfo (exeInfo context')
             = Some (Some envName)
          /\ pc_projectName <$> exe_projectConfig (exeInfo context')
             = Some (headlessProjectName w context)).
Proof.
  intros Hyes.
  assert (forall s c, (s, c) ∈ (execStaged w (analyzeProject context)).1 ->
            isPrompt c = false) as Hquiet.
  { intros s c Hin. apply analyzeProject_calls in Hin
      as [(_ & Hc & _) | [(_ & [Hin | Hin]) | [(_ & Hin) | [(_ & Hin)
          | [(_ & [-> | [-> | ->]]) | (_ & Hin)]]]]]; try done.
    + rewrite exec_isNewProject in Hin. by elems Hin.
    + by apply (getProjectName_headless w
                  (set_isNewProject (negb (hasProject w)) context) Hyes eq_refl).
    + by eapply getEnvName_headless_quiet.
    + by eapply resolveEditor_headless.
    + rewrite exec_isNewProject in Hin. by elems Hin. }
  split; [done | split].
  - intros Hblocked. apply blocked_call in Hblocked as ([s c] & Hin & Hwaits).
    apply handle_Waits in Hwaits. apply Hquiet in Hin.
    by destruct c.
  - intros envName Hparam Hvalid.
    rewrite analyzeProject_outcome.
    rewrite (getProjectName_headless_result w
               (set_isNewProject (negb (hasProject w)) context) Hyes eq_refl).
    cbn [thenOutcome].
    assert ((exec w (getEnvName (set_isNewProject (negb (hasProject w)) context))).2
            = Returned envName) as ->.
    { rewrite getEnvName_ignores_flag. unfold getEnvName.
      by rewrite Hparam, Hvalid. }
    cbn [thenOutcome]. rewrite exec_resolveEditor. cbn [thenOutcome].
    rewrite exec_saveSourceEnvName.
    destruct (_ && _); cbn [snd thenOutcome]; [| by eexists].
    destruct (persistedLocalEnvInfo w); by eexists.
Qed.

Lemma headless_run_witness :
  exists context',
    (execStaged emptyDirWorld
       (analyzeProject
          (sampleContext (sampleParams (Some "my shop") (Some "dev") None) true))).2
      = Returned context'
    /\ lei_envName <$> exe_localEnvInfo (exeInfo context') = Some (Some "dev")
    /\ pc_projectName <$> exe_projectConfig (exeInfo context') = Some "myshop".
Proof.
  exact (proj2 (proj2 (headless_run emptyDirWorld
                  (sampleContext (sampleParams (Some "my shop") (Some "dev") None) true)
                  eq_refl))
           "dev" eq_refl eq_refl).
Defined.

(** ** The editor when none is stored *)

(** X6. When the local environment info stores no editor, or an empty
    one, the editor comes from [getEditor]: the parameter, normalized,
    also in an interactive run, where nothing is then asked; with no
    parameter, nothing under [yes] and the editor selection otherwise.
    The returned context carries it. *)
Theorem editor_without_stored (w : World) (context : Context) :
  truthy (lei_defaultEditor (default emptyLocalEnvInfo (persistedLocalEnvInfo w)))
    = false ->
  (forall context0,
     exec w (resolveEditor context0) =
       ([ProcessCwd; GetLocalEnvInfo (Some (cwd w)) false (Some emptyLocalEnvInfo)]
        ++ match amplifyParam ap_defaultEditor context0 with
           | Some e => [NormalizeEditor e]
           | None =>
               if yes (inputParams (exeInfo context0)) then []
               else [EditorSelection None]
           end,
        Returned
          match amplifyParam ap_defaultEditor context0 with
          | Some e => Some (normalizeEditorImpl w e)
          | None =>
              if yes (inputParams (exeInfo context0)) then None
              else Some (pickedEditor w)
          end)%list)
  /\ (forall context',
        (execStaged w (analyzeProject context)).2 = Returned context' ->
        lei_defaultEditor <$> exe_localEnvInfo (exeInfo context')
          = Some (freshEditor w context)).
Proof.
  intros Hstored. split.
  - intros context0. unfold resolveEditor.
    rewrite run_bind, exec_getDefaultEditor. cbn [fst snd]. rewrite Hstored.
    cbn [negb]. unfold getEditor.
    destruct (amplifyParam ap_defaultEditor context0); simpl; [done |].
    by destruct (yes (inputParams (exeInfo context0))).
  - intros context' Hrun.
    apply analyzeProject_returned in Hrun
      as (projectName & envName & defaultEditor & context4
          & _ & _ & Heditor & _ & ->).
    rewrite exec_resolveEditor in Heditor. cbn zeta in Heditor.
    rewrite Hstored in Heditor. by injection Heditor as <-.
Qed.

Lemma editor_without_stored_witness :
  exec emptyDirWorld
    (resolveEditor (sampleContext (sampleParams None None (Some "code")) false))
  = ([ProcessCwd;
      GetLocalEnvInfo (Some "/home/me/shop") false (Some emptyLocalEnvInfo);
      NormalizeEditor "code"], Returned (Some "code"))
  /\ lei_defaultEditor <$> exe_localEnvInfo
       (exeInfo (returnedContext emptyDirWorld
                   (sampleContext (sampleParams None (Some "dev") None) true)))
     = Some None.
Proof.
  split.
  - exact (proj1 (editor_without_stored emptyDirWorld
                    (sampleContext (sampleParams None None (Some "code")) false)
                    eq_refl)
             (sampleContext (sampleParams None None (Some "code")) false)).
  - exact (proj2 (editor_without_stored emptyDirWorld
                    (sampleContext (sampleParams None (Some "dev") None) true)
                    eq_refl)
             (returnedContext emptyDirWorld
                (sampleContext (sampleParams None (Some "dev") None) true))
             eq_refl).
Defined.

(** ** The project name of a new project *)



(** ** The assembled context *)

Lemma saveSourceEnvName_keeps (w : World) (context context4 : Context) :
  (exec w (saveSourceEnvName context)).2 = Returned context4 ->
  options context4 = options context
  /\ inputParams (exeInfo context4) = inputParams (exeInfo context)
  /\ exe_forcePush (exeInfo context4) = exe_forcePush (exeInfo context).
Proof.
  rewrite exec_saveSourceEnvName.
  destruct (_ && _); simpl; [| by intros [= <-]].
  destruct (persistedLocalEnvInfo w); by intros [= <-].
Qed.

(** X8. The context [analyzeProject] returns keeps the options and the
    input parameters it was given and has [forcePush] set from the option.
    Whatever the context held before, its [projectConfig] is a new one,
    with the current version and no frontend, its [localEnvInfo] has the
    working directory as project path, and its [teamProviderInfo] and
    [metaData] are empty. *)
Theorem assembled_context (w : World) (context context' : Context) :
  (execStaged w (analyzeProject context)).2 = Returned context' ->
  options context' = options context
  /\ inputParams (exeInfo context') = inputParams (exeInfo context)
  /\ exe_forcePush (exeInfo context') = Some (opt_forcePush (options context))
  /\ exe_teamProviderInfo (exeInfo context') = Some ∅
  /\ exe_metaData (exeInfo context') = Some ∅
  /\ (exists projectName,
        exe_projectConfig (exeInfo context') =
          Some {| pc_projectName := projectName;
                  pc_version := CURRENT_PROJECT_CONFIG_VERSION;
                  pc_frontend := None |})
  /\ (exists defaultEditor envName,
        exe_localEnvInfo (exeInfo context') =
          Some {| lei_projectPath := Some (cwd w);
                  lei_defaultEditor := defaultEditor;
                  lei_envName := Some envName |}).
Proof.
  intros Hrun.
  apply analyzeProject_returned in Hrun
    as (projectName & envName & defaultEditor & context4
        & _ & _ & _ & Hsource & ->).
  apply saveSourceEnvName_keeps in Hsource as (Hoptions & Hparams & Hforce).
  simpl. repeat split; eauto.
Qed.

Lemma assembled_context_witness :
  let context' := returnedContext shopWorld staleContext in
  exe_forcePush (exeInfo context') = Some true
  /\ exe_teamProviderInfo (exeInfo context') = Some ∅
  /\ exe_metaData (exeInfo context') = Some ∅
  /\ exe_projectConfig (exeInfo context') =
       Some {| pc_projectName := "shop";
               pc_version := CURRENT_PROJECT_CONFIG_VERSION;
               pc_frontend := None |}.
Proof.
  destruct (assembled_context shopWorld staleContext
              (returnedContext shopWorld staleContext) eq_refl)
    as (_ & _ & Hforce & Hteam & Hmeta & _ & _).
  split; [exact Hforce |]. split; [exact Hteam |]. split; [exact Hmeta |].
  reflexivity.
Defined.

(** ** The note on entry *)

Lemma never_within {A} (P : Call -> bool) (s : stage) (p : io A) :
  never P p -> never (fun sc : stage * Call => P sc.2) (within s p).
Proof.
  induction 1 as [a | c k Hc Hk IH]; simpl; [apply never_Ret |].
  by apply never_Do.
Qed.

Ltac quiet_stage :=
  apply never_within;
  unfold getProjectName, getEnvName, askEnvName, newEnvQuestion, getDefaultEnv,
    resolveEditor, getDefaultEditor, getEditor, isNewEnv, saveSourceEnvName,
    setProjectConfig;
  solve_never; by apply isNewProject_never.

(** X9. [analyzeProject] prints its note about the root of the app
    directory exactly when the [app] option or the [quickstart] option is
    missing, before anything else; it prints no other warning. *)
Theorem root_note (w : World) (context : Context) :
  let missing :=
    negb (truthy (opt_app (options context)))
    || negb (opt_quickstart (options context)) in
  (forall s message,
     (s, PrintWarning message) ∈ (execStaged w (analyzeProject context)).1
     <-> s = Entry /\ message = ROOT_NOTE /\ missing = true)
  /\ (missing = true ->
      (execStaged w (analyzeProject context)).1 !! 0%nat
        = Some (Entry, PrintWarning ROOT_NOTE)).
Proof.
  intros missing. subst missing. unfold analyzeProject.
  match goal with
  | |- context [bind (within Entry ?first) ?rest] =>
      assert (forall u sc,
                sc ∈ (execStaged w (rest u)).1 -> isWarning sc.2 = false) as Hrest
  end.
  { intros u sc.
    apply never_run with (P := fun sc : stage * Call => isWarning sc.2).
    apply never_bind; [by apply never_within, never_Do; [| intros; apply never_Ret] |].
    intros projectPath.
    apply never_bind; [apply never_within; by apply isNewProject_never |].
    intros newProject.
    apply never_bind; [quiet_stage |]. intros projectName.
    apply never_bind; [quiet_stage |]. intros envName.
    apply never_bind; [quiet_stage |]. intros defaultEditor.
    apply never_bind; [quiet_stage |]. intros newEnv.
    apply never_bind; [quiet_stage |]. intros context4.
    apply never_bind; [quiet_stage |]. intros context5.
    apply never_Ret. }
  rewrite run_bind, run_within.
  destruct (_ || _); cbn [run call fst snd handle fmap list_fmap app]; split.
  - intros s message. rewrite elem_of_cons. split.
    + intros [[= -> ->] | Hin]; [done |]. by apply Hrest in Hin.
    + intros (-> & -> & _). by left.
  - done.
  - intros s message. split; [| by intros (_ & _ & ?)].
    intros Hin. by apply Hrest in Hin.
  - done.
Qed.

Lemma root_note_witness :
  (execStaged emptyDirWorld (analyzeProject (sampleContext None true))).1 !! 0%nat
  = Some (Entry, PrintWarning ROOT_NOTE).
Proof.
  exact (proj2 (root_note emptyDirWorld (sampleContext None true)) eq_refl).
Defined.

(** ** The headless fast path in every directory *)

Lemma exec_analyzeProjectHeadless (w : World) (context : Context) :
  exec w (analyzeProjectHeadless context) =
    ((ProcessCwd :: (exec w (getDefaultEnv context)).1)
     ++ [ProcessCwd; ProjectConfigFileExists (cwd w)]
     ++ (if truthy (opt_frontend (options context)) then []
         else [PrintWarning "No frontend specified. Defaulting to android."]),
     Returned
       (set_projectConfig
          {| pc_projectName := basename (cwd w);
             pc_version := CURRENT_PROJECT_CONFIG_VERSION;
             pc_frontend :=
               if truthy (opt_frontend (options context))
               then opt_frontend (options context) else Some "android" |}
          (setExeInfo
             (set_projectConfig (newProjectConfig (basename (cwd w)))
                (set_isNewProject (negb (hasProject w)) context))
             (cwd w) None (offeredDefault w))))%list.
Proof.
  unfold analyzeProjectHeadless.
  rewrite (run_bind _ (call ProcessCwd)). cbn [run call fst snd handle app].
  rewrite run_bind, exec_getDefaultEnv. cbn [fst snd app].
  rewrite run_bind, exec_setProjectConfig. cbn [fst snd app].
  cbn [options setExeInfo set_projectConfig set_isNewProject exeInfo].
  destruct (truthy (opt_frontend (options context)));
    destruct (hasProject w); reflexivity.
Qed.

(** X10. [analyzeProjectHeadless] returns in every directory.  The
    environment name it stores is ["dev"] when there is no project config
    file or ["dev"] is not a known environment, and undefined otherwise;
    the project name is the folder name as it is; the frontend is the
    option when given, else ["android"], with a warning printed exactly in
    that case.  It sets [isNewProject] and leaves [isNewEnv], [forcePush]
    and [sourceEnvName] as they were.  It asks nothing, prints no error,
    does not end the process and normalizes nothing. *)
Theorem headless_fast_path (w : World) (context : Context) :
  exists context',
    (exec w (analyzeProjectHeadless context)).2 = Returned context'
    /\ exe_localEnvInfo (exeInfo context') =
         Some {| lei_projectPath := Some (cwd w);
                 lei_defaultEditor := None;
                 lei_envName :=
                   if bool_decide (persistedProjectConfig w = None
                                   \/ "dev" ∉ allEnvs w)
                   then Some "dev" else None |}
    /\ exe_projectConfig (exeInfo context') =
         Some {| pc_projectName := basename (cwd w);
                 pc_version := CURRENT_PROJECT_CONFIG_VERSION;
                 pc_frontend :=
                   if truthy (opt_frontend (options context))
                   then opt_frontend (options context) else Some "android" |}
    /\ exe_isNewProject (exeInfo context')
       = Some (bool_decide (persistedProjectConfig w = None))
    /\ exe_isNewEnv (exeInfo context') = exe_isNewEnv (exeInfo context)
    /\ exe_forcePush (exeInfo context') = exe_forcePush (exeInfo context)
    /\ exe_sourceEnvName (exeInfo context') = exe_sourceEnvName (exeInfo context)
    /\ (forall c, c ∈ (exec w (analyzeProjectHeadless context)).1 ->
          isFailure c = false /\ isPrompt c = false /\ isNormalization c = false)
    /\ (forall message,
          PrintWarning message ∈ (exec w (analyzeProjectHeadless context)).1
          <-> message = "No frontend specified. Defaulting to android."
              /\ truthy (opt_frontend (options context)) = false).
Proof.
  rewrite exec_analyzeProjectHeadless. eexists. split; [done |].
  assert ((if bool_decide (persistedProjectConfig w = None \/ "dev" ∉ allEnvs w)
           then Some "dev" else None) = offeredDefault w) as ->.
  { destruct (offeredDefault_cases w) as [Hdev | Hnone].
    - rewrite Hdev. apply offeredDefault_dev in Hdev.
      by rewrite (bool_decide_eq_true_2 _ Hdev).
    - rewrite Hnone. case_bool_decide as Hcase; [| done].
      apply offeredDefault_dev in Hcase. congruence. }
  assert (bool_decide (persistedProjectConfig w = None) = negb (hasProject w)) as ->.
  { destruct (hasProject w) eqn:Hhas; simpl.
    - apply bool_decide_eq_false. apply hasProject_true in Hhas as [pc ->]. done.
    - apply bool_decide_eq_true. by apply hasProject_false. }
  repeat (split; [done |]).
  rewrite exec_getDefaultEnv. cbn [fst]. split.
  - intros c Hin.
    destruct (hasProject w); destruct (truthy (opt_frontend (options context)));
      by elems Hin.
  - intros message. split.
    + intros Hin.
      destruct (hasProject w); destruct (truthy (opt_frontend (options context)));
        elems Hin; try done; by injection Hin as <-.
    + intros [-> ->].
      destruct (hasProject w); simpl; rewrite !elem_of_cons; tauto.
Qed.

(** ** What [analyzeProject] reads of its context *)

Lemma run_bind_ext {E R A B} (h : forall e : E, reply (R e))
    (p : prog E R A) (f g : A -> prog E R B) :
  (forall a, (run h p).2 = Returned a -> run h (f a) = run h (g a)) ->
  run h (bind p f) = run h (bind p g).
Proof.
  intros Hfg. rewrite !run_bind.
  destruct (run h p).2 as [a | | |]; try done. by rewrite Hfg.
Qed.

Lemma getProjectName_reads (context1 context2 : Context) :
  inputParams (exeInfo context1) = inputParams (exeInfo context2) ->
  exe_isNewProject (exeInfo context1) = exe_isNewProject (exeInfo context2) ->
  getProjectName context1 = getProjectName context2.
Proof.
  destruct context1 as [? []], context2 as [? []]. simpl. by intros -> ->.
Qed.

Lemma getEnvName_reads (context1 context2 : Context) :
  inputParams (exeInfo context1) = inputParams (exeInfo context2) ->
  getEnvName context1 = getEnvName context2.
Proof.
  destruct context1 as [? []], context2 as [? []]. simpl. by intros ->.
Qed.

Lemma resolveEditor_reads (context1 context2 : Context) :
  inputParams (exeInfo context1) = inputParams (exeInfo context2) ->
  resolveEditor context1 = resolveEditor context2.
Proof.
  destruct context1 as [? []], context2 as [? []]. simpl. by intros ->.
Qed.

Lemma analyzeProject_same_inputs (w : World) (context1 context2 : Context) :
  options context1 = options context2 ->
  inputParams (exeInfo context1) = inputParams (exeInfo context2) ->
  exe_sourceEnvName (exeInfo context1) = exe_sourceEnvName (exeInfo context2) ->
  execStaged w (analyzeProject context1) = execStaged w (analyzeProject context2).
Proof.
  intros Hoptions Hparams Hsource. unfold analyzeProject. rewrite Hoptions.
  apply run_bind_ext. intros _ _.
  apply run_bind_ext. intros projectPath _.
  apply run_bind_ext. intros newProject _.
  rewrite (getProjectName_reads (set_isNewProject newProject context1)
             (set_isNewProject newProject context2)) by done.
  apply run_bind_ext. intros projectName _.
  rewrite (getEnvName_reads (set_isNewProject newProject context1)
             (set_isNewProject newProject context2)) by done.
  apply run_bind_ext. intros envName _.
  rewrite (resolveEditor_reads (set_isNewProject newProject context1)
             (set_isNewProject newProject context2)) by done.
  apply run_bind_ext. intros defaultEditor _.
  apply run_bind_ext. intros newEnv _.
  rewrite !run_bind, !run_within, !exec_saveSourceEnvName.
  cbn [exeInfo set_forcePush set_isNewEnv set_isNewProject
       exe_isNewEnv exe_isNewProject].
  destruct (_ && _); cbn [fst snd].
  - destruct (persistedLocalEnvInfo w) as [info |];
      rewrite !run_bind, !run_within, !exec_setProjectConfig; cbn [fst snd];
      destruct context1 as [? []], context2 as [? []]; simpl in *; by subst.
  - rewrite !run_bind, !run_within, !exec_setProjectConfig; cbn [fst snd].
    destruct context1 as [? []], context2 as [? []]; simpl in *; by subst.
Qed.

(** X11. [analyzeProject] reads only the options, the input parameters and
    [sourceEnvName] of the context it is given: on two contexts that agree
    on these it makes the same calls and ends the same way, with the same
    context when it returns.  The flags, [projectConfig], [localEnvInfo],
    [teamProviderInfo] and [metaData] found on entry are never read. *)
Theorem analyzeProject_reads (w : World) (context1 context2 : Context) :
  options context1 = options context2 ->
  inputParams (exeInfo context1) = inputParams (exeInfo context2) ->
  exe_sourceEnvName (exeInfo context1) = exe_sourceEnvName (exeInfo context2) ->
  execStaged w (analyzeProject context1) = execStaged w (analyzeProject context2).
Proof. apply analyzeProject_same_inputs. Qed.

Lemma analyzeProject_reads_witness :
  execStaged shopWorld (analyzeProject staleContext)
  = execStaged shopWorld
      (analyzeProject
         (set_sourceEnvName (Some "old")
            {| options := options staleContext;
               exeInfo := exeInfo (sampleContext (sampleParams None (Some "dev") None) true)
            |})).
Proof.
  exact (analyzeProject_reads shopWorld staleContext
           (set_sourceEnvName (Some "old")
              {| options := options staleContext;
                 exeInfo := exeInfo (sampleContext
                                       (sampleParams None (Some "dev") None) true)
              |})
           eq_refl eq_refl eq_refl).
Defined.

Lemma run_bind_map {E R A B} (h : forall e : E, reply (R e))
    (p : prog E R A) (f g : A -> prog E R B) (phi : B -> B) :
  (forall a, (run h p).2 = Returned a ->
     run h (f a) = ((run h (g a)).1, mapOutcome phi (run h (g a)).2)) ->
  run h (bind p f) = ((run h (bind p g)).1, mapOutcome phi (run h (bind p g)).2).
Proof.
  intros Hfg. rewrite !run_bind.
  destruct (run h p).2 as [a | | |]; try done. by rewrite Hfg.
Qed.

(** The [sourceEnvName] found on entry only shows in the returned context,
    and only when lines 46-53 did not assign it. *)
Lemma analyzeProject_source (w : World) (context : Context) (v : option string) :
  execStaged w (analyzeProject (set_sourceEnvName v context)) =
    ((execStaged w (analyzeProject context)).1,
     mapOutcome
       (fun context' =>
          if sourceAssigned w context' then context'
          else set_sourceEnvName v context')
       (execStaged w (analyzeProject context)).2).
Proof.
  unfold analyzeProject.
  change (options (set_sourceEnvName v context)) with (options context).
  apply run_bind_map. intros _ _.
  apply run_bind_map. intros projectPath _.
  apply run_bind_map. intros newProject HnewProject.
  rewrite run_within, exec_isNewProject in HnewProject. injection HnewProject as <-.
  rewrite (getProjectName_reads
             (set_isNewProject (negb (hasProject w)) (set_sourceEnvName v context))
             (set_isNewProject (negb (hasProject w)) context)) by done.
  apply run_bind_map. intros projectName _.
  rewrite (getEnvName_reads
             (set_isNewProject (negb (hasProject w)) (set_sourceEnvName v context))
             (set_isNewProject (negb (hasProject w)) context)) by done.
  apply run_bind_map. intros envName _.
  rewrite (resolveEditor_reads
             (set_isNewProject (negb (hasProject w)) (set_sourceEnvName v context))
             (set_isNewProject (negb (hasProject w)) context)) by done.
  apply run_bind_map. intros defaultEditor _.
  apply run_bind_map. intros newEnv _.
  rewrite !run_bind, !run_within, !exec_saveSourceEnvName.
  unfold sourceAssigned.
  cbn [exeInfo set_forcePush set_isNewEnv set_isNewProject set_sourceEnvName
       exe_isNewEnv exe_isNewProject truthyb].
  destruct context as [? []].
  destruct newEnv, (hasProject w) eqn:Hhas; cbn [andb negb fst snd];
    repeat (rewrite ?run_bind, ?run_within, ?exec_setProjectConfig, ?Hhas;
            cbn [fst snd]);
    try reflexivity;
    destruct (persistedLocalEnvInfo w) as [info |];
    repeat (rewrite ?run_bind, ?run_within, ?exec_setProjectConfig, ?Hhas;
            cbn [fst snd]);
    reflexivity.
Qed.

(** X12. Running [analyzeProject] again on the context it returned, in the
    same directory and with the same answers, makes the same calls and
    returns the same context. *)
Theorem analyzeProject_again (w : World) (context context' : Context) :
  (execStaged w (analyzeProject context)).2 = Returned context' ->
  execStaged w (analyzeProject context') =
    ((execStaged w (analyzeProject context)).1, Returned context').
Proof.
  intros Hrun.
  pose proof (analyzeProject_returned w context context' Hrun)
    as (projectName & envName & defaultEditor & context4
        & _ & _ & _ & Hsource & Hcontext').
  pose proof (saveSourceEnvName_keeps _ _ _ Hsource) as (Hoptions & Hparams & _).
  rewrite (analyzeProject_same_inputs w context'
             (set_sourceEnvName (exe_sourceEnvName (exeInfo context')) context))
    by (subst context'; simpl; done).
  rewrite analyzeProject_source, Hrun. cbn [mapOutcome].
  destruct (sourceAssigned w context'); [done |].
  by destruct context' as [? []].
Qed.

Lemma analyzeProject_again_witness :
  execStaged shopWorldNewEnv
    (analyzeProject (returnedContext shopWorldNewEnv (sampleContext None false)))
  = ((execStaged shopWorldNewEnv (analyzeProject (sampleContext None false))).1,
     Returned (returnedContext shopWorldNewEnv (sampleContext None false))).
Proof.
  exact (analyzeProject_again shopWorldNewEnv (sampleContext None false)
           (returnedContext shopWorldNewEnv (sampleContext None false)) eq_refl).
Defined.

(** ** The questions for the environment name *)

Lemma calls_newEnvQuestion (w : World) (context : Context) :
  (exec w (newEnvQuestion context)).1 =
    ((exec w (getDefaultEnv context)).1
     ++ [PromptInput (envNameQuestion (offeredDefault w))])%list.
Proof.
  unfold newEnvQuestion. rewrite run_bind, exec_getDefaultEnv. cbn [fst snd].
  unfold call. simpl. by destruct (firstAccepted _ _).
Qed.

Lemma calls_askEnvName (w : World) (context : Context) :
  (exec w (askEnvName context)).1 =
    ([ProcessCwd; ProjectConfigFileExists (cwd w)]
     ++ (if hasProject w then
           GetAllEnvs ::
           (if (0 <? length (allEnvs w))%nat then
              ConfirmPrompt "Do you want to use an existing environment?" ::
              (if confirms w then [PromptList (envQuestion (allEnvs w))]
               else (exec w (newEnvQuestion context)).1)
            else (exec w (newEnvQuestion context)).1)
         else (exec w (newEnvQuestion context)).1))%list.
Proof.
  unfold askEnvName. rewrite run_bind, exec_isNewProject. cbn [fst snd app].
  destruct (hasProject w); cbn [negb]; [| done].
  rewrite (run_bind _ (call GetAllEnvs)). cbn [run call fst snd handle app].
  destruct (0 <? length (allEnvs w))%nat; [| done].
  rewrite (run_bind _ (call (ConfirmPrompt _))).
  cbn [run call fst snd handle app].
  destruct (confirms w); [| done].
  unfold call. simpl. by destruct (chosen _ _).
Qed.

Lemma offeredDefault_decide (w : World) :
  offeredDefault w =
    if bool_decide (persistedProjectConfig w = None \/ "dev" ∉ allEnvs w)
    then Some "dev" else None.
Proof.
  destruct (bool_decide_reflect
              (persistedProjectConfig w = None \/ "dev" ∉ allEnvs w)) as [H | H].
  - by apply offeredDefault_dev.
  - destruct (offeredDefault_cases w) as [Hdev | Hnone]; [| done].
    by apply offeredDefault_dev in Hdev.
Qed.

(** The calls of [getEnvName] when no name gets through the parameter
    guard and [yes] is not set are those of [askEnvName]. *)
Lemma calls_getEnvName_asking (w : World) (context : Context) :
  amplifyParam ap_envName context = None ->
  yes (inputParams (exeInfo context)) = false ->
  (exec w (getEnvName context)).1 = (exec w (askEnvName context)).1.
Proof.
  intros Hparam Hyes. unfold getEnvName. rewrite Hparam, Hyes.
  rewrite run_bind. done.
Qed.

(** X13. In an interactive run with no environment name through the
    parameter guard, [getEnvName] asks whether to use an existing
    environment exactly when the directory has a project config file and
    at least one environment is known.  After a yes it shows the list of
    the known names, under the name ["envName"], and does not ask for a new
    name; in every other case it asks for a new name, once, and shows no
    list.  The question for a new name has the name ["envName"], the
    message ["Enter a name for the environment"], the validator of
    environment names, and as default ["dev"] when the directory has no
    project config file or ["dev"] is not a known environment, and no
    default otherwise. *)
Theorem environment_questions (w : World) (context : Context) :
  amplifyParam ap_envName context = None ->
  yes (inputParams (exeInfo context)) = false ->
  let existing := hasProject w && (0 <? length (allEnvs w))%nat in
  (forall message,
     ConfirmPrompt message ∈ (exec w (getEnvName context)).1
     <-> message = "Do you want to use an existing environment?"
         /\ existing = true)
  /\ (forall q,
        PromptList q ∈ (exec w (getEnvName context)).1
        <-> q = {| lq_name := "envName";
                   lq_message := "Choose the environment you would like to use:";
                   lq_choices := allEnvs w |}
            /\ existing && confirms w = true)
  /\ (forall q,
        PromptInput q ∈ (exec w (getEnvName context)).1
        <-> q = {| iq_name := "envName";
                   iq_message := "Enter a name for the environment";
                   iq_default :=
                     if bool_decide (persistedProjectConfig w = None
                                     \/ "dev" ∉ allEnvs w)
                     then Some "dev" else None;
                   iq_validate := ValidateEnvName |}
            /\ existing && confirms w = false).
Proof.
  intros Hparam Hyes existing. subst existing.
  rewrite <- offeredDefault_decide.
  change {| iq_name := "envName";
            iq_message := "Enter a name for the environment";
            iq_default := offeredDefault w;
            iq_validate := ValidateEnvName |}
    with (envNameQuestion (offeredDefault w)).
  change {| lq_name := "envName";
            lq_message := "Choose the environment you would like to use:";
            lq_choices := allEnvs w |}
    with (envQuestion (allEnvs w)).
  rewrite calls_getEnvName_asking by done.
  rewrite calls_askEnvName, !calls_newEnvQuestion, exec_getDefaultEnv. cbn [fst].
  destruct (hasProject w); cbn [andb];
    [destruct (0 <? length (allEnvs w))%nat; cbn [andb];
     [destruct (confirms w) |] |];
    (split; [| split]); intros x;
    (split;
     [intros Hin; elems Hin; try discriminate Hin; by injection Hin as -> |]);
    intros [-> Hcase]; try done; simpl; rewrite !elem_of_cons; tauto.
Qed.

Lemma environment_questions_witness :
  PromptList {| lq_name := "envName";
                lq_message := "Choose the environment you would like to use:";
                lq_choices := ["dev"] |}
    ∈ (exec shopWorld (getEnvName (sampleContext None false))).1
  /\ PromptInput {| iq_name := "envName";
                    iq_message := "Enter a name for the environment";
                    iq_default := None;
                    iq_validate := ValidateEnvName |}
       ∈ (exec shopWorldNewEnv (getEnvName (sampleContext None false))).1
  /\ PromptInput {| iq_name := "envName";
                    iq_message := "Enter a name for the environment";
                    iq_default := Some "dev";
                    iq_validate := ValidateEnvName |}
       ∈ (exec emptyDirWorld (getEnvName (sampleContext None false))).1.
Proof.
  split; [| split].
  - apply (proj1 (proj2 (environment_questions shopWorld (sampleContext None false)
                           eq_refl eq_refl))).
    split; reflexivity.
  - apply (proj2 (proj2 (environment_questions shopWorldNewEnv
                           (sampleContext None false) eq_refl eq_refl))).
    split; reflexivity.
  - apply (proj2 (proj2 (environment_questions emptyDirWorld
                           (sampleContext None false) eq_refl eq_refl))).
    split; reflexivity.
Defined.

(** ** The default of the question for a new environment name *)

Lemma elem_of_run_bind_l {E R A B} (h : forall e : E, reply (R e))
    (p : prog E R A) (f : A -> prog E R B) (e : E) :
  e ∈ (run h p).1 -> e ∈ (run h (bind p f)).1.
Proof.
  intros He. rewrite run_bind. destruct (run h p).2; simpl; try done.
  apply elem_of_app. by left.
Qed.

Lemma elem_of_run_bind_r {E R A B} (h : forall e : E, reply (R e))
    (p : prog E R A) (f : A -> prog E R B) (a : A) (e : E) :
  (run h p).2 = Returned a -> e ∈ (run h (f a)).1 -> e ∈ (run h (bind p f)).1.
Proof.
  intros Hp He. rewrite run_bind, Hp. simpl. apply elem_of_app. by right.
Qed.

(** The question for a new name is asked unless the user chooses among
    the known environments. *)
Lemma getEnvName_asks_new_name (w : World) (context : Context) :
  amplifyParam ap_envName context = None ->
  yes (inputParams (exeInfo context)) = false ->
  hasProject w && (0 <? length (allEnvs w))%nat && confirms w = false ->
  PromptInput (envNameQuestion (offeredDefault w))
    ∈ (exec w (getEnvName context)).1.
Proof.
  intros Hparam Hyes Hcase.
  rewrite calls_getEnvName_asking by done.
  rewrite calls_askEnvName, !calls_newEnvQuestion.
  destruct (hasProject w); cbn [andb] in Hcase;
    [destruct (0 <? length (allEnvs w))%nat; cbn [andb] in Hcase;
     [destruct (confirms w); [done |] |] |];
    repeat first [rewrite elem_of_app | rewrite elem_of_cons]; auto 10.
Qed.

(** The calls of [getEnvName] are calls of [analyzeProject], in the stage
    of the environment name, once the project name is resolved. *)
Lemma analyzeProject_environment_calls (w : World) (context : Context)
    (projectName : string) (c : Call) :
  let context1 := set_isNewProject (negb (hasProject w)) context in
  (exec w (getProjectName context1)).2 = Returned projectName ->
  c ∈ (exec w (getEnvName context1)).1 ->
  (EnvironmentName, c) ∈ (execStaged w (analyzeProject context)).1.
Proof.
  intros context1 Hname Hin. subst context1. unfold analyzeProject.
  apply (elem_of_run_bind_r _ _ _ tt);
    [rewrite run_within; by destruct (_ || _) |].
  apply (elem_of_run_bind_r _ _ _ (cwd w)); [done |].
  apply (elem_of_run_bind_r _ _ _ (negb (hasProject w)));
    [by rewrite run_within, exec_isNewProject |].
  apply (elem_of_run_bind_r _ _ _ projectName); [by rewrite run_within |].
  apply elem_of_run_bind_l. rewrite run_within. cbn [fst].
  apply list_elem_of_fmap. eauto.
Qed.

(** C7. The default [getDefaultEnv] returns is ["dev"] exactly when the
    working directory has no project config file or ["dev"] is not among
    the known environment names, and there is no default otherwise.  Every
    question for a new environment name, in [getEnvName] and in a run of
    [analyzeProject], is the question named ["envName"] with that default
    and the validator of environment names.  The question is asked in
    every interactive run without a name among the parameters in which the
    user does not choose among the known environments. *)
Theorem default_environment_offered (w : World) (context : Context) :
  exists d : option string,
    let asked :=
      {| iq_name := "envName";
         iq_message := "Enter a name for the environment";
         iq_default := d;
         iq_validate := ValidateEnvName |} in
    (exec w (getDefaultEnv context)).2 = Returned d
    /\ (d = Some "dev" <-> persistedProjectConfig w = None \/ "dev" ∉ allEnvs w)
    /\ (d = None <-> ~ (persistedProjectConfig w = None \/ "dev" ∉ allEnvs w))
    /\ (forall q, PromptInput q ∈ (exec w (getEnvName context)).1 -> q = asked)
    /\ (forall q,
          (EnvironmentName, PromptInput q)
            ∈ (execStaged w (analyzeProject context)).1 ->
          q = asked)
    /\ (amplifyParam ap_envName context = None ->
        yes (inputParams (exeInfo context)) = false ->
        hasProject w && (0 <? length (allEnvs w))%nat && confirms w = false ->
        PromptInput asked ∈ (exec w (getEnvName context)).1
        /\ forall projectName,
             (exec w (getProjectName
                        (set_isNewProject (negb (hasProject w)) context))).2
               = Returned projectName ->
             (EnvironmentName, PromptInput asked)
               ∈ (execStaged w (analyzeProject context)).1).
Proof.
  exists (offeredDefault w). cbv zeta.
  change {| iq_name := "envName";
            iq_message := "Enter a name for the environment";
            iq_default := offeredDefault w;
            iq_validate := ValidateEnvName |}
    with (envNameQuestion (offeredDefault w)).
  split; [by rewrite exec_getDefaultEnv |].
  split; [apply offeredDefault_dev |]. split.
  { rewrite <- offeredDefault_dev.
    destruct (offeredDefault_cases w) as [-> | ->]; split; done. }
  split; [apply getEnvName_asks |]. split.
  - intros q Hin. apply analyzeProject_calls in Hin
      as [(? & _) | [(? & _) | [(_ & Hin) | [(? & _) | [(? & _) | (? & _)]]]]];
      try done.
    by eapply getEnvName_asks.
  - intros Hparam Hyes Hcase. split; [by apply getEnvName_asks_new_name |].
    intros projectName Hname.
    eapply analyzeProject_environment_calls; [exact Hname |].
    rewrite getEnvName_ignores_flag. by apply getEnvName_asks_new_name.
Qed.

Lemma default_environment_offered_witness :
  PromptInput {| iq_name := "envName";
                 iq_message := "Enter a name for the environment";
                 iq_default := None;
                 iq_validate := ValidateEnvName |}
    ∈ (exec shopWorldNewEnv (getEnvName (sampleContext None false))).1
  /\ PromptInput {| iq_name := "envName";
                    iq_message := "Enter a name for the environment";
                    iq_default := Some "dev";
                    iq_validate := ValidateEnvName |}
       ∈ (exec emptyDirWorld (getEnvName (sampleContext None false))).1.
Proof.
  split.
  - destruct (default_environment_offered shopWorldNewEnv (sampleContext None false))
      as (d & _ & _ & Hnone & _ & _ & Hasked).
    assert (d = None) as ->.
    { apply Hnone. intros [Hconfig | Hdev]; [discriminate Hconfig |].
      apply Hdev. apply list_elem_of_here. }
    apply Hasked; reflexivity.
  - destruct (default_environment_offered emptyDirWorld (sampleContext None false))
      as (d & _ & Hdev & _ & _ & _ & Hasked).
    assert (d = Some "dev") as ->.
    { apply Hdev. by left. }
    apply Hasked; reflexivity.
Defined.

(** ** The new-project flag in the later stages *)

(** The local environment info is read in the classification stage only
    for a new environment of a directory that has a project. *)
Lemma carryOver_read_inv (w : World) (context : Context) :
  (EnvironmentClass, GetLocalEnvInfo None false None)
    ∈ (execStaged w (analyzeProject context)).1 ->
  hasProject w = true
  /\ exists envName,
       (exec w (getEnvName (set_isNewProject (negb (hasProject w)) context))).2
         = Returned envName
       /\ isNewEnvIn w envName = true.
Proof.
  unfold analyzeProject. intros Hin.
  apply elem_of_run_bind in Hin as [Hin | (_ & _ & Hin)].
  { by apply elem_of_within in Hin as [? _]. }
  apply elem_of_run_bind in Hin as [Hin | (projectPath & _ & Hin)].
  { by apply elem_of_within in Hin as [? _]. }
  apply elem_of_run_bind in Hin as [Hin | (newProject & HnewProject & Hin)].
  { by apply elem_of_within in Hin as [? _]. }
  rewrite run_within, exec_isNewProject in HnewProject. injection HnewProject as <-.
  apply elem_of_run_bind in Hin as [Hin | (projectName & _ & Hin)].
  { by apply elem_of_within in Hin as [? _]. }
  apply elem_of_run_bind in Hin as [Hin | (envName & HenvName & Hin)].
  { by apply elem_of_within in Hin as [? _]. }
  rewrite run_within in HenvName. cbn [snd] in HenvName.
  apply elem_of_run_bind in Hin as [Hin | (defaultEditor & _ & Hin)].
  { by apply elem_of_within in Hin as [? _]. }
  apply elem_of_run_bind in Hin as [Hin | (newEnv & HnewEnv & Hin)].
  { apply elem_of_within in Hin as [_ Hin]. rewrite exec_isNewEnv in Hin.
    by elems Hin. }
  rewrite run_within, exec_isNewEnv in HnewEnv. injection HnewEnv as <-.
  apply elem_of_run_bind in Hin as [Hin | (context4 & _ & Hin)].
  - apply elem_of_within in Hin as [_ Hin].
    rewrite exec_saveSourceEnvName in Hin. cbn [exeInfo exe_isNewEnv
      exe_isNewProject set_forcePush set_isNewEnv set_isNewProject truthyb] in Hin.
    destruct (isNewEnvIn w envName) eqn:HnewEnv;
      destruct (hasProject w) eqn:Hhas; cbn [negb andb fst] in Hin;
      try (by apply elem_of_nil in Hin).
    eauto.
  - apply elem_of_run_bind in Hin as [Hin | (context5 & _ & Hin)].
    + by apply elem_of_within in Hin as [? _].
    + simpl in Hin. by apply elem_of_nil in Hin.
Qed.

(** In a run that returns, the local environment info is read in the
    classification stage for every new environment of a directory that
    has a project. *)
Lemma carryOver_read (w : World) (context context' : Context) :
  (execStaged w (analyzeProject context)).2 = Returned context' ->
  hasProject w = true ->
  exe_isNewEnv (exeInfo context') = Some true ->
  (EnvironmentClass, GetLocalEnvInfo None false None)
    ∈ (execStaged w (analyzeProject context)).1.
Proof.
  intros Hreturned Hhas HnewEnv.
  apply analyzeProject_returned in Hreturned
    as (projectName & envName & defaultEditor & context4
        & Hname & HenvName & Heditor & Hsource & ->).
  apply saveSourceEnvName_flags in Hsource as Hflags.
  cbn [exeInfo exe_isNewEnv setExeInfo set_projectConfig set_isNewProject]
    in HnewEnv.
  destruct Hflags as [Hflag _]. rewrite Hflag in HnewEnv.
  cbn [exeInfo exe_isNewEnv set_forcePush set_isNewEnv set_isNewProject]
    in HnewEnv.
  injection HnewEnv as HnewEnv.
  unfold analyzeProject.
  apply (elem_of_run_bind_r _ _ _ tt);
    [rewrite run_within; by destruct (_ || _) |].
  apply (elem_of_run_bind_r _ _ _ (cwd w)); [done |].
  apply (elem_of_run_bind_r _ _ _ (negb (hasProject w)));
    [by rewrite run_within, exec_isNewProject |].
  apply (elem_of_run_bind_r _ _ _ projectName); [by rewrite run_within |].
  apply (elem_of_run_bind_r _ _ _ envName); [by rewrite run_within |].
  apply (elem_of_run_bind_r _ _ _ defaultEditor); [by rewrite run_within |].
  apply (elem_of_run_bind_r _ _ _ (isNewEnvIn w envName));
    [by rewrite run_within, exec_isNewEnv |].
  apply elem_of_run_bind_l. rewrite run_within, exec_saveSourceEnvName.
  cbn [exeInfo exe_isNewEnv exe_isNewProject set_forcePush set_isNewEnv
       set_isNewProject truthyb].
  rewrite HnewEnv, Hhas. cbn [negb andb fst].
  apply list_elem_of_fmap. eexists. split; [done | apply list_elem_of_here].
Qed.

(** The known environments are listed in the stage of the environment
    name only in a directory that has a project. *)
Lemma getEnvName_lists_known (w : World) (context : Context) :
  GetAllEnvs ∈ (exec w (getEnvName context)).1 -> hasProject w = true.
Proof.
  unfold getEnvName. intros Hin.
  destruct (amplifyParam ap_envName context) as [envName |].
  { destruct (isEnvNameValid envName); by elems Hin. }
  apply elem_of_run_bind in Hin as [Hin | (_ & _ & Hin)].
  { destruct (yes _); by elems Hin. }
  rewrite calls_askEnvName, !calls_newEnvQuestion, exec_getDefaultEnv in Hin.
  destruct (hasProject w); [done |]. by elems Hin.
Qed.

(** A directory that has a project gives its project name. *)
Lemma getProjectName_existing (w : World) (context : Context) :
  hasProject w = true ->
  exists projectName,
    (exec w (getProjectName (set_isNewProject false context))).2
      = Returned projectName.
Proof.
  intros [pc Hpc]%hasProject_true. unfold getProjectName. simpl.
  unfold persistedProjectConfig in Hpc. rewrite Hpc. simpl. eauto.
Qed.

(** C8, as the source has it.  In every run of [analyzeProject] the stages
    come in the order: entry, project identity ([isNewProject],
    [getProjectName]), environment name ([getEnvName]), editor
    ([getDefaultEditor], [getEditor]), environment classification
    ([isNewEnv], the source environment), assembly ([setProjectConfig],
    [setExeInfo]).  The stages of the environment depend on the new-project
    flag of the first stage.  The name resolution, which computes the flag
    again, lists the known environments only when the flag is false, and
    in an interactive run without a name among the parameters exactly
    then.  The carry-over of the source environment, which reads the flag
    stored in the context, reads the local environment info only when the
    flag is false, and in a run that returns exactly when the environment
    is new and the flag is false. *)
Theorem stages_in_source_order (w : World) (context : Context) :
  followsOrder sourceRank (execStaged w (analyzeProject context)).1 = true
  /\ exists newProject,
       (exec w (isNewProject context)).2 = Returned newProject
       /\ ((EnvironmentName, GetAllEnvs)
             ∈ (execStaged w (analyzeProject context)).1 ->
           newProject = false)
       /\ (amplifyParam ap_envName context = None ->
           yes (inputParams (exeInfo context)) = false ->
           newProject = false ->
           (EnvironmentName, GetAllEnvs)
             ∈ (execStaged w (analyzeProject context)).1)
       /\ ((EnvironmentClass, GetLocalEnvInfo None false None)
             ∈ (execStaged w (analyzeProject context)).1 ->
           newProject = false)
       /\ (forall context',
             (execStaged w (analyzeProject context)).2 = Returned context' ->
             exe_isNewProject (exeInfo context') = Some newProject
             /\ ((EnvironmentClass, GetLocalEnvInfo None false None)
                   ∈ (execStaged w (analyzeProject context)).1
                 <-> exe_isNewEnv (exeInfo context') = Some true
                     /\ newProject = false)).
Proof.
  split.
  { apply between_nondecreasing with 0%nat 5%nat. apply analyzeProject_stages. }
  exists (negb (hasProject w)). split; [by rewrite exec_isNewProject |].
  split; [| split; [| split]].
  - intros Hin. apply analyzeProject_calls in Hin
      as [(? & _) | [(? & _) | [(_ & Hin) | [(? & _) | [(? & _) | (? & _)]]]]];
      try done.
    apply getEnvName_lists_known in Hin as ->. done.
  - intros Hparam Hyes Hflag. apply negb_false_iff in Hflag.
    destruct (getProjectName_existing w context Hflag) as [projectName Hname].
    apply (analyzeProject_environment_calls w context projectName).
    + by rewrite Hflag.
    + rewrite getEnvName_ignores_flag, calls_getEnvName_asking by done.
      rewrite calls_askEnvName, Hflag. simpl. rewrite !elem_of_cons. tauto.
  - intros Hin. apply carryOver_read_inv in Hin as [-> _]. done.
  - intros context' Hreturned. split.
    + apply analyzeProject_returned in Hreturned
        as (projectName & envName & defaultEditor & context4 & _ & _ & _ & _ & ->).
      done.
    + split.
      * intros Hin. apply carryOver_read_inv in Hin
          as (Hhas & envName & HenvName & HnewEnv).
        rewrite Hhas. split; [| done].
        apply analyzeProject_returned in Hreturned
          as (projectName & envName' & defaultEditor & context4
              & _ & HenvName' & _ & Hsource & ->).
        rewrite HenvName in HenvName'. injection HenvName' as <-.
        apply saveSourceEnvName_flags in Hsource as [Hflag _].
        cbn [exeInfo exe_isNewEnv setExeInfo set_projectConfig set_isNewProject].
        rewrite Hflag.
        cbn [exeInfo exe_isNewEnv set_forcePush set_isNewEnv set_isNewProject].
        by rewrite HnewEnv.
      * intros [HnewEnv Hflag]. apply negb_false_iff in Hflag.
        by eapply carryOver_read.
Qed.

(** ** The run that ends the process *)

(** X14. When a run of [analyzeProject] ends the process, the project
    identity has been resolved in full before, the question for the
    project name included, and the run stops at [exitOnNextTick]: its
    calls are those of the entry, of [isNewProject], of [getProjectName],
    then the error, the usage error and the exit.  The editor, the team
    provider info and the local environment info are not read. *)
Theorem fatal_run (w : World) (context : Context) (code : Z) :
  (execStaged w (analyzeProject context)).2 = Exited code ->
  let context1 := set_isNewProject (negb (hasProject w)) context in
  exists projectName message,
    (exec w (getProjectName context1)).2 = Returned projectName
    /\ (execStaged w (analyzeProject context)).1 =
         ((pair Entry <$>
             (if negb (truthy (opt_app (options context)))
                 || negb (opt_quickstart (options context))
              then [PrintWarning ROOT_NOTE] else []) ++ [ProcessCwd])
          ++ (pair ProjectIdentity <$>
                [ProcessCwd; ProjectConfigFileExists (cwd w)]
                ++ (exec w (getProjectName context1)).1)
          ++ (pair EnvironmentName <$>
                [PrintError message;
                 EmitError (InvalidEnvironmentNameError INVALID_ENV_NAME_MSG);
                 ExitOnNextTick 1]))%list.
Proof.
  intros Hexit context1. subst context1.
  pose proof Hexit as Houtcome. rewrite analyzeProject_outcome in Houtcome.
  destruct (getProjectName_outcome w
              (set_isNewProject (negb (hasProject w)) context) eq_refl)
    as [[projectName HprojectName] | [Hblocked _]];
    [| by rewrite Hblocked in Houtcome].
  rewrite HprojectName in Houtcome. cbn [thenOutcome] in Houtcome.
  assert (envNameFatal context = true) as Hfatal.
  { destruct (exec w (getEnvName _)).2 as [envName | code' | |] eqn:HenvName;
      cbn [thenOutcome] in Houtcome; try done.
    - rewrite exec_resolveEditor in Houtcome. cbn [thenOutcome] in Houtcome.
      rewrite exec_saveSourceEnvName in Houtcome. by destruct (_ && _).
    - by apply getEnvName_exited in HenvName as [_ Hfatal]. }
  destruct (getEnvName_fatal w context Hfatal) as [message HenvName].
  exists projectName, message. split; [done |].
  unfold analyzeProject.
  rewrite run_bind, run_within.
  assert (forall b : bool,
            (exec w (if b then call (PrintWarning ROOT_NOTE) else Ret tt)).2
            = Returned tt) as Hnote by (by intros []).
  change (PrintWarning _) with (PrintWarning ROOT_NOTE). rewrite Hnote.
  cbn [fst snd].
  rewrite (run_bind _ (within Entry (call ProcessCwd))).
  cbn [within call run stagedHandle handle fst snd].
  rewrite run_bind, run_within, exec_isNewProject. cbn [fst snd].
  rewrite run_bind, run_within, HprojectName. cbn [fst snd].
  rewrite run_bind, run_within, getEnvName_ignores_flag, HenvName. cbn [fst snd].
  destruct (_ || _); cbn [run call handle fst]; rewrite !fmap_app;
    cbn [fmap list_fmap app]; by rewrite <- ?app_assoc.
Qed.

Lemma fatal_run_witness :
  exists projectName message,
    (exec emptyDirWorld
       (getProjectName
          (set_isNewProject true
             (sampleContext (sampleParams None (Some "DEV") None) false)))).2
      = Returned projectName
    /\ (execStaged emptyDirWorld
          (analyzeProject
             (sampleContext (sampleParams None (Some "DEV") None) false))).1
       = [(Entry, PrintWarning ROOT_NOTE); (Entry, ProcessCwd);
          (ProjectIdentity, ProcessCwd);
          (ProjectIdentity, ProjectConfigFileExists "/home/me/shop");
          (ProjectIdentity, ProcessCwd);
          (ProjectIdentity, NormalizeProjectName "shop");
          (ProjectIdentity, PromptInput (projectNameQuestion "shop"));
          (EnvironmentName, PrintError message);
          (EnvironmentName,
           EmitError (InvalidEnvironmentNameError INVALID_ENV_NAME_MSG));
          (EnvironmentName, ExitOnNextTick 1)].
Proof.
  destruct (fatal_run emptyDirWorld
              (sampleContext (sampleParams None (Some "DEV") None) false)
              1%Z eq_refl)
    as (projectName & message & HprojectName & Hcalls).
  exists projectName, message. split; [exact HprojectName |].
  rewrite Hcalls. reflexivity.
Defined.

(** ** How a run of [analyzeProject] ends *)

Lemma getEnvName_blocked (w : World) (context : Context) :
  (exec w (getEnvName context)).2 = Blocked ->
  yes (inputParams (exeInfo context)) = false.
Proof.
  intros Hblocked. destruct (yes (inputParams (exeInfo context))) eqn:Hyes; [| done].
  apply blocked_call in Hblocked as (c & Hin & Hwaits).
  apply handle_Waits in Hwaits.
  apply getEnvName_headless_quiet in Hin; [| done]. by destruct c.
Qed.

(** X3. [analyzeProject] never throws: the project config is read only
    after [isNewProject] has found the file, and the other reads of
    persisted state are made with [throwIfNotExist: false].  A run returns
    a context, or ends the process with status 1, or is left waiting at a
    question, which only happens when [yes] is not set. *)
Theorem analyzeProject_ends (w : World) (context : Context) :
  (exists context', (execStaged w (analyzeProject context)).2 = Returned context')
  \/ (execStaged w (analyzeProject context)).2 = Exited 1
  \/ ((execStaged w (analyzeProject context)).2 = Blocked
      /\ yes (inputParams (exeInfo context)) = false).
Proof.
  pose proof (getProjectName_outcome w
                (set_isNewProject (negb (hasProject w)) context) eq_refl)
    as HprojectName.
  rewrite analyzeProject_outcome.
  destruct HprojectName as [[projectName ->] | [-> Hyes]]; cbn [thenOutcome];
    [| auto].
  destruct (exec w (getEnvName _)).2 as [envName | code' | e' |] eqn:HenvName;
    cbn [thenOutcome].
  - left. rewrite exec_resolveEditor. cbn [thenOutcome].
    rewrite exec_saveSourceEnvName.
    destruct (_ && _); cbn [snd thenOutcome]; eauto.
  - apply getEnvName_exited in HenvName as [-> _]. auto.
  - by apply never_Threw in HenvName; [| apply getEnvName_never_throws].
  - apply getEnvName_blocked in HenvName. auto.
Qed.
